(** * arc: the analytics middleware chain and the users patch handlers

    A shallow embedding of [plugins/analytics/middleware.go] (the
    [Recorder] tee, [recordResponse], [classifier], [validateOp],
    [validateACL]) and of the principal patch handlers of the users
    plugin ([patchUser], [patchUserWithUsername]).

    Conventions.
    - A Go [http.HandlerFunc] mutates the [http.ResponseWriter] it is
      handed; here it is a function from the writer's state to the
      writer's state afterwards (explicit state passing), together with
      the background tasks it started with [go].
    - A Go panic (failed unchecked type assertion, nil dereference) is the
      [Panic] outcome; it aborts the enclosing call.
    - [log.Printf] calls have no observable effect on the response and are
      left out.
    - Go's [int] is [Z]; [[]byte] is [list byte]; [string] is [string];
      a pointer that may be nil is an [option]. *)

From Stdlib Require Import ZArith Floats DecimalString.
From stdpp Require Import gmap strings list.

Open Scope Z_scope.
Open Scope string_scope.

(** ** Outcomes: normal return or panic *)

Inductive outcome (A : Type) : Type :=
| Ok (a : A)
| Panic (reason : string).
Arguments Ok {A} a.
Arguments Panic {A} reason.

Definition bind {A B : Type} (m : outcome A) (k : A -> outcome B) : outcome B :=
  match m with
  | Ok a => k a
  | Panic s => Panic s
  end.

Notation "'let!' x ':=' m 'in' k" := (bind m (fun x => k))
  (at level 10, x pattern, m at level 100, k at level 200).

(** The double-quote character, for messages that contain it. *)
Definition dq : string := String (Ascii.ascii_of_nat 34) EmptyString.

(** ** Package op *)
Module op.

Inductive Operation : Type := Read | Write | Delete.

#[global] Instance Operation_eq_dec : EqDecision Operation.
Proof. solve_decision. Defined.

(** Modelled from the spec: [op.Contains] is not among the sources; the
    spec's check is membership, [Operation ∈ principal.ops]. *)
Fixpoint Contains (ops : list Operation) (o : Operation) : bool :=
  match ops with
  | [] => false
  | x :: rest => if decide (x = o) then true else Contains rest o
  end.

(** Modelled from the spec: [Operation.String] is not among the sources;
    the spec's scenario 3 prints [Delete] as 'delete'. *)
Definition String (o : Operation) : string :=
  match o with
  | Read => "read"
  | Write => "write"
  | Delete => "delete"
  end.

End op.

(** ** Package acl *)
Module acl.

(** Modelled from the spec: the declaration of [acl.ACL] is not among the
    sources; the spec lists these categories, and the sources name
    [acl.Search] and [acl.Analytics]. *)
Inductive ACL : Type := User | Permission | Analytics | Search | Reindex | Cluster.

#[global] Instance ACL_eq_dec : EqDecision ACL.
Proof. solve_decision. Defined.

(** Modelled from the spec: [acl.Contains] is not among the sources; the
    spec's check is membership, [ACLCategory ∈ principal.acls]. *)
Fixpoint Contains (acls : list ACL) (a : ACL) : bool :=
  match acls with
  | [] => false
  | x :: rest => if decide (x = a) then true else Contains rest a
  end.

(** Modelled from the spec: [ACL.String] is not among the sources; the
    lower-case category name, as [op.String] does for operations. *)
Definition String (a : ACL) : string :=
  match a with
  | User => "user"
  | Permission => "permission"
  | Analytics => "analytics"
  | Search => "search"
  | Reindex => "reindex"
  | Cluster => "cluster"
  end.

End acl.

(** ** Package category *)
Module category.

(** Modelled from the spec: the declaration of [category.Category] is not
    among the sources; a category is known here by its name, as it appears
    in a principal document ([categories=[user]]). *)
Definition Category : Type := string.

End category.

(** ** Package user *)
Module user.

(** Modelled from the spec: the declaration of [user.User] is not among the
    sources; these are the fields the sources read ([UserId] in the
    analytics middleware; [Username], [Password], [Email], [IsAdmin],
    [ACLs], [Categories], [Ops], [Indices] in the users handlers).
    [IsAdmin] is a [*bool] in the source. *)
Record User : Type := {
  UserId : string;
  Username : string;
  Password : string;
  Email : string;
  IsAdmin : option bool;
  ACLs : list acl.ACL;
  Categories : list category.Category;
  Ops : list op.Operation;
  Indices : list string
}.

End user.

(** ** Request context *)
Module context.

(** One key per package ([acl.CtxKey], [op.CtxKey], [user.CtxKey],
    [index.CtxKey]); keys of different packages never collide. *)
Inductive CtxKey : Type := aclCtxKey | opCtxKey | userCtxKey | indexCtxKey.

#[global] Instance CtxKey_eq_dec : EqDecision CtxKey.
Proof. solve_decision. Defined.

(** A non-nil [interface{}] value with its dynamic type.  The pointer
    types carry [None] for a typed nil pointer.  [AnyString] stands for a
    value of any other dynamic type. *)
Inductive any : Type :=
| AnyACLPtr (p : option acl.ACL)
| AnyOpPtr (p : option op.Operation)
| AnyUserPtr (p : option user.User)
| AnyStrings (l : list string)
| AnyString (s : string).

(** [context.Context] as the chain of [WithValue] layers, innermost first. *)
Definition Context : Type := list (CtxKey * any).

Definition Background : Context := [].

Definition WithValue (ctx : Context) (k : CtxKey) (v : any) : Context :=
  (k, v) :: ctx.

(** [ctx.Value(key)]: the value of the innermost layer with that key, or
    the nil interface ([None]). *)
Fixpoint Value (ctx : Context) (k : CtxKey) : option any :=
  match ctx with
  | [] => None
  | (k', v) :: rest => if decide (k' = k) then Some v else Value rest k
  end.

End context.

(** ** Package net/http: headers, requests and the response writer *)
Module http.

Definition MethodGet : string := "GET".
Definition MethodPost : string := "POST".
Definition MethodPut : string := "PUT".
Definition MethodPatch : string := "PATCH".
Definition MethodDelete : string := "DELETE".

Definition StatusOK : Z := 200.
Definition StatusCreated : Z := 201.
Definition StatusBadRequest : Z := 400.
Definition StatusUnauthorized : Z := 401.
Definition StatusForbidden : Z := 403.
Definition StatusNotFound : Z := 404.
Definition StatusInternalServerError : Z := 500.

(** [http.Header] is [map[string][]string]. *)
Abbreviation Header := (gmap string (list string)).

(** [h.Get(key)]: the first value under [key], or the empty string.  Go
    canonicalises [key] first; every key the sources pass is already in
    canonical form. *)
Definition HeaderGet (h : Header) (key : string) : string :=
  match h !! key with
  | Some (v :: _) => v
  | _ => EmptyString
  end.

(** [h.Set(key, value)]: replaces whatever is stored under [key]. *)
Definition HeaderSet (h : Header) (key value : string) : Header :=
  <[key := [value]]> h.

Record Request : Type := {
  Method : string;
  RequestURI : string;
  ReqHeader : Header;
  ctx : context.Context;
  RemoteAddr : string;
  (** [ioutil.ReadAll(r.Body)]: the bytes, or [None] when the read fails *)
  ReqBody : option (list Byte.byte);
  (** [r.BasicAuth()]: user name and password of the Authorization header *)
  BasicAuth : option (string * string);
  (** [mux.Vars(r)]: the named captures of the matched route *)
  Vars : gmap string string
}.

(** [r.WithContext(ctx)] *)
Definition WithContext (r : Request) (c : context.Context) : Request :=
  {| Method := Method r; RequestURI := RequestURI r; ReqHeader := ReqHeader r;
     ctx := c; RemoteAddr := RemoteAddr r; ReqBody := ReqBody r;
     BasicAuth := BasicAuth r; Vars := Vars r |}.

(** The state behind an [http.ResponseWriter]: what the client will
    observe.  [httptest.ResponseRecorder] keeps the same fields
    ([HeaderMap], [snapHeader], [Code], [wroteHeader], [Body]). *)
Record ResponseWriter : Type := {
  HeaderMap : Header;
  (** the headers as they were when the status line went out *)
  snapHeader : Header;
  Code : Z;
  wroteHeader : bool;
  Body : list Byte.byte
}.

(** [w.WriteHeader(code)]: the first call fixes the status and the headers
    that go out with it, later calls are ignored. *)
Definition WriteHeader (w : ResponseWriter) (code : Z) : ResponseWriter :=
  if wroteHeader w then w
  else {| HeaderMap := HeaderMap w; snapHeader := HeaderMap w; Code := code;
          wroteHeader := true; Body := Body w |}.

(** [w.Write(buf)]: writes the header with status 200 if none was written,
    then appends [buf] to the body. *)
Definition Write (w : ResponseWriter) (buf : list Byte.byte) : ResponseWriter :=
  let w' := WriteHeader w StatusOK in
  {| HeaderMap := HeaderMap w'; snapHeader := snapHeader w'; Code := Code w';
     wroteHeader := wroteHeader w'; Body := (Body w' ++ buf)%list |}.

(** [w.Header().Set(key, value)] *)
Definition SetHeader (w : ResponseWriter) (key value : string) : ResponseWriter :=
  {| HeaderMap := HeaderSet (HeaderMap w) key value; snapHeader := snapHeader w;
     Code := Code w; wroteHeader := wroteHeader w; Body := Body w |}.

(** The headers the client receives: those that were set when the status
    line went out, or, for a handler that returned without writing, those
    set when it returned. *)
Definition sentHeader (w : ResponseWriter) : Header :=
  if wroteHeader w then snapHeader w else HeaderMap w.

(** The writer the server hands to the outermost handler: nothing written
    yet; a handler that never writes leaves the client with status 200 and
    an empty body. *)
Definition freshWriter : ResponseWriter :=
  {| HeaderMap := ∅; snapHeader := ∅; Code := StatusOK; wroteHeader := false;
     Body := [] |}.

(** Tasks started with [go].  The only [go] statement of the sources is the
    last line of [Recorder]: [go a.recordResponse(docId, searchId,
    respRecorder, r)]. *)
Inductive Goroutine : Type :=
| GoRecordResponse (docId searchId : string) (respRecorder : ResponseWriter) (r : Request).

(** [http.HandlerFunc]: the writer after the call and the tasks started
    during it, or a panic. *)
Definition HandlerFunc : Type :=
  ResponseWriter -> Request -> outcome (ResponseWriter * list Goroutine).

End http.

(** ** Package net/http/httptest *)
Module httptest.

(** [httptest.NewRecorder()] *)
Definition NewRecorder : http.ResponseWriter :=
  {| http.HeaderMap := ∅; http.snapHeader := ∅; http.Code := 200;
     http.wroteHeader := false; http.Body := [] |}.

End httptest.

(** ** Package util *)
Module util.

Definition decimal (z : Z) : string := NilEmpty.string_of_int (Z.to_int z).

(** JSON string literal: quotes and backslashes escaped. *)
Fixpoint escape (s : string) : string :=
  match s with
  | EmptyString => EmptyString
  | String c rest =>
      if decide (c = Ascii.ascii_of_nat 34) then String (Ascii.ascii_of_nat 92) (String c (escape rest))
      else if decide (c = Ascii.ascii_of_nat 92) then String c (String c (escape rest))
      else String c (escape rest)
  end.

Definition quote (s : string) : string := dq +:+ escape s +:+ dq.

(** Modelled from the spec: package [util] is not among the sources.  The
    spec's envelope is [{ error: { code: <http status>, message: <string> } }]. *)
Definition envelope (msg : string) (code : Z) : list Byte.byte :=
  String.list_byte_of_string
    ("{" +:+ quote "error" +:+ ":{" +:+ quote "code" +:+ ":" +:+ decimal code +:+ ","
         +:+ quote "message" +:+ ":" +:+ quote msg +:+ "}}").

(** Modelled from the spec: [util.WriteBackRaw] is not among the sources;
    it answers with the given status and the given bytes as a JSON body. *)
Definition WriteBackRaw (w : http.ResponseWriter) (raw : list Byte.byte) (code : Z)
  : http.ResponseWriter :=
  http.Write
    (http.WriteHeader (http.SetHeader w "Content-Type" "application/json") code) raw.

(** Modelled from the spec: [util.WriteBackMessage] is not among the
    sources; it answers with the given status and the envelope around the
    message. *)
Definition WriteBackMessage (w : http.ResponseWriter) (msg : string) (code : Z)
  : http.ResponseWriter :=
  WriteBackRaw w (envelope msg code) code.

(** Modelled from the spec: [util.WriteBackError] is not among the sources;
    it answers with the given status and the envelope around the message. *)
Definition WriteBackError (w : http.ResponseWriter) (msg : string) (code : Z)
  : http.ResponseWriter :=
  WriteBackRaw w (envelope msg code) code.

End util.

(** ** Package bytes *)
Module bytes.

Fixpoint HasPrefix (s prefix : list Byte.byte) : bool :=
  match prefix, s with
  | [], _ => true
  | p :: prefix', c :: s' => Byte.eqb p c && HasPrefix s' prefix'
  | _ :: _, [] => false
  end.

(** The scan of [bytes.Replace]: [skip] bytes of a match just replaced are
    still to be passed over. *)
Fixpoint replaceFrom (skip : nat) (s old new : list Byte.byte) : list Byte.byte :=
  match s with
  | [] => []
  | c :: rest =>
      match skip with
      | S k => replaceFrom k rest old new
      | O =>
          if HasPrefix s old then new ++ replaceFrom (length old - 1) rest old new
          else c :: replaceFrom 0 rest old new
      end
  end.

(** [bytes.Replace(s, old, new, -1)] for a non-empty [old], as at its three
    call sites: every non-overlapping occurrence, left to right. *)
Definition Replace (s old new : list Byte.byte) : list Byte.byte :=
  replaceFrom 0 s old new.

End bytes.

(** ** Package strings *)
Module strings.

(** [strings.Contains(s, substr)] *)
Fixpoint Contains (s substr : string) : bool :=
  if String.prefix substr s then true
  else match s with
       | EmptyString => false
       | String _ rest => Contains rest substr
       end.

End strings.

(** ** Package strconv *)
Module strconv.

(** [strconv.ParseBool]: [None] is the syntax error. *)
Definition ParseBool (str : string) : option bool :=
  if bool_decide (str ∈ ["1"; "t"; "T"; "TRUE"; "true"; "True"]) then Some true
  else if bool_decide (str ∈ ["0"; "f"; "F"; "FALSE"; "false"; "False"]) then Some false
  else None.

End strconv.

(** ** Package analytics *)
Module analytics.

Definition XSearchQuery : string := "X-Search-Query".
Definition XSearchId : string := "X-Search-Id".
Definition XSearchFilters : string := "X-Search-Filters".
Definition XSearchClick : string := "X-Search-Click".
Definition XSearchClickPosition : string := "X-Search-Click-Position".
Definition XSearchConversion : string := "X-Search-Conversion".
Definition XSearchCustomEvent : string := "X-Search-Custom-Event".

(** What [encoding/json] decodes into an [interface{}]. *)
#[local] Unset Elimination Schemes.
Inductive JSON : Type :=
| JNull
| JBool (b : bool)
| JNumber (f : float)
| JString (s : string)
| JArray (l : list JSON)
| JObject (fields : list (string * JSON)).
#[local] Set Elimination Schemes.

(** One element of [searchResponse.Hits.Hits]. *)
Record hit : Type := {
  Source : list (string * JSON);
  Type_ : string;
  Id : string
}.

Record searchResponse : Type := {
  Took : float;
  Hits_Total : Z;
  Hits_Hits : list hit
}.

(** The zero value of [searchResponse], as [var esResponse searchResponse]
    leaves it. *)
Definition zeroSearchResponse : searchResponse :=
  {| Took := 0%float; Hits_Total := 0; Hits_Hits := [] |}.

Record mSearchResponse : Type := {
  Responses : list searchResponse
}.

(** What the record ([map[string]interface{}]) holds under a key. *)
Inductive value : Type :=
| VFloat (f : float)
| VInt (z : Z)
| VBool (b : bool)
| VString (s : string)
| VStrings (l : list string)
| VHits (hits : list (gmap string string))
| VMap (m : gmap string string).

(** The collaborators of [recordResponse] outside this file: the standard
    library's JSON codec and [strconv.Atoi], the package's own [parse] (kept
    in another file) and the [iplookup] package.  [None] is the error
    result. *)
Class External : Type := {
  json_Unmarshal_searchResponse : list Byte.byte -> option searchResponse;
  json_Unmarshal_mSearchResponse : list Byte.byte -> option mSearchResponse;
  json_Marshal : list (string * JSON) -> option string;
  strconv_Atoi : string -> option Z;
  parse : string -> gmap string string;
  iplookup_FromRequest : http.Request -> string;
  iplookup_GetCoordinates : string -> option string;
  iplookup_GetCountry : string -> option string
}.

(** How a call of [recordResponse] ends: the record handed to
    [a.es.indexRecord(docId, record)], or an early [return] after logging. *)
Inductive recorded : Type :=
| Indexed (docId : string) (record : gmap string value)
| Dropped.

(** Dereference of a pointer. *)
Definition deref {A : Type} (p : option A) : outcome A :=
  match p with
  | Some a => Ok a
  | None => Panic "invalid memory address or nil pointer dereference"
  end.

Definition internalServerError (w : http.ResponseWriter)
  : outcome (http.ResponseWriter * list http.Goroutine) :=
  Ok (util.WriteBackMessage w "Internal server error" http.StatusInternalServerError, []).

(** [Recorder] (lines 51-92).  [uuid] is what [uuid.New().String()] returns
    when it is called.  The loop of lines 83-85 stores every key of the
    recorder's header map into the writer's header map: the union that
    prefers the recorder's entries. *)
Definition Recorder (uuid : string) (h : http.HandlerFunc) : http.HandlerFunc :=
  fun w r =>
  match context.Value (http.ctx r) context.aclCtxKey with
  | None => internalServerError w
  | Some (context.AnyACLPtr reqACL) =>
      let searchQuery := http.HeaderGet (http.ReqHeader r) XSearchQuery in
      let searchId := http.HeaderGet (http.ReqHeader r) XSearchId in
      let! reqACLv := deref reqACL in
      if negb (bool_decide (reqACLv = acl.Search))
         || (bool_decide (searchQuery = EmptyString) && bool_decide (searchId = EmptyString))
      then h w r
      else
        let docId := if bool_decide (searchId = EmptyString) then uuid else searchId in
        let! (respRecorder, started) := h httptest.NewRecorder r in
        let w1 :=
          {| http.HeaderMap := http.HeaderMap respRecorder ∪ http.HeaderMap w;
             http.snapHeader := http.snapHeader w; http.Code := http.Code w;
             http.wroteHeader := http.wroteHeader w; http.Body := http.Body w |} in
        let w2 := http.SetHeader w1 XSearchId docId in
        let w3 := http.WriteHeader w2 (http.Code respRecorder) in
        let w4 := http.Write w3 (http.Body respRecorder) in
        Ok (w4, (started ++ [http.GoRecordResponse docId searchId respRecorder r])%list)
  | Some _ => internalServerError w
  end.

Section recordResponse.
Context `{External}.

(** Lines 107-124: the multi-search envelope and its first response when
    the request URI contains [_msearch], a single search response
    otherwise; [None] when [json.Unmarshal] fails. *)
Definition parseResponse (requestURI : string) (respBody : list Byte.byte)
  : option searchResponse :=
  if strings.Contains requestURI "_msearch" then
    match json_Unmarshal_mSearchResponse respBody with
    | None => None
    | Some m =>
        match Responses m with
        | first :: _ => Some first
        | [] => Some zeroSearchResponse
        end
    end
  else json_Unmarshal_searchResponse respBody.

(** The body of the loop of lines 128-141 over the hits it visits; a hit
    whose source cannot be marshalled is skipped. *)
Fixpoint recordHits (hs : list hit) : list (gmap string string) :=
  match hs with
  | [] => []
  | x :: rest =>
      match json_Marshal (Source x) with
      | None => recordHits rest
      | Some raw =>
          <["source" := raw]> (<["type" := Type_ x]> (<["id" := Id x]> ∅))
            :: recordHits rest
      end
  end.

(** The unchecked assertion of the context's indices to [[]string]
    (line 146); it panics on the nil interface as well. *)
Definition asStrings (v : option context.any) : outcome (list string) :=
  match v with
  | Some (context.AnyStrings l) => Ok l
  | Some _ => Panic "interface conversion: interface {} is not []string"
  | None => Panic "interface conversion: interface {} is nil, not []string"
  end.

(** [recordResponse] (lines 95-218).  [now] is what
    [time.Now().Format("2006/01/02 15:04:05")] returns when it is called.
    Reading the recorder's buffered body cannot fail. *)
Definition recordResponse (now : string) (docId searchId : string)
    (respRecorder : http.ResponseWriter) (r : http.Request) : outcome recorded :=
  let respBody := http.Body respRecorder in
  let respBody := bytes.Replace respBody (String.list_byte_of_string "_source")
                    (String.list_byte_of_string "source") in
  let respBody := bytes.Replace respBody (String.list_byte_of_string "_type")
                    (String.list_byte_of_string "type") in
  let respBody := bytes.Replace respBody (String.list_byte_of_string "_id")
                    (String.list_byte_of_string "id") in
  match parseResponse (http.RequestURI r) respBody with
  | None => Ok Dropped
  | Some esResponse =>
      let hits := recordHits (take 10 (Hits_Hits esResponse)) in
      let record : gmap string value := ∅ in
      let record := <["took" := VFloat (Took esResponse)]> record in
      let! record :=
        (if bool_decide (searchId = EmptyString) then
           let! indices := asStrings (context.Value (http.ctx r) context.indexCtxKey) in
           let record := <["indices" := VStrings indices]> record in
           let record :=
             <["search_query" := VString (http.HeaderGet (http.ReqHeader r) XSearchQuery)]>
               record in
           let record := <["hits_in_response" := VHits hits]> record in
           let record := <["total_hits" := VInt (Hits_Total esResponse)]> record in
           let record := <["datestamp" := VString now]> record in
           let searchFilters := parse (http.HeaderGet (http.ReqHeader r) XSearchFilters) in
           Ok (if bool_decide (0 < size searchFilters)%nat
               then <["search_filters" := VMap searchFilters]> record
               else record)
         else Ok record) in
      let ipAddr := iplookup_FromRequest r in
      let record := <["ip" := VString ipAddr]> record in
      let record :=
        match iplookup_GetCoordinates ipAddr with
        | None => record
        | Some coordinates => <["location" := VString coordinates]> record
        end in
      let record :=
        match iplookup_GetCountry ipAddr with
        | None => record
        | Some country => <["country" := VString country]> record
        end in
      let searchClick := http.HeaderGet (http.ReqHeader r) XSearchClick in
      let record :=
        if bool_decide (searchClick = EmptyString) then record
        else match strconv.ParseBool searchClick with
             | Some clicked => <["click" := VBool clicked]> record
             | None => record
             end in
      let searchClickPosition := http.HeaderGet (http.ReqHeader r) XSearchClickPosition in
      let record :=
        if bool_decide (searchClickPosition = EmptyString) then record
        else match strconv_Atoi searchClickPosition with
             | Some pos => <["click_position" := VInt pos]> record
             | None => record
             end in
      let searchConversion := http.HeaderGet (http.ReqHeader r) XSearchConversion in
      let record :=
        if bool_decide (searchConversion = EmptyString) then record
        else match strconv.ParseBool searchConversion with
             | Some conversion => <["conversion" := VBool conversion]> record
             | None => record
             end in
      let customEvents := parse (http.HeaderGet (http.ReqHeader r) XSearchCustomEvent) in
      let record :=
        if bool_decide (0 < size customEvents)%nat
        then <["custom_events" := VMap customEvents]> record
        else record in
      Ok (Indexed docId record)
  end.

(** Running a task started with [go]. *)
Definition run (now : string) (g : http.Goroutine) : outcome recorded :=
  match g with
  | http.GoRecordResponse docId searchId respRecorder r =>
      recordResponse now docId searchId respRecorder r
  end.

End recordResponse.

(** The switch of [classifier] (lines 231-245). *)
Definition classifierOperation (method : string) : op.Operation :=
  if bool_decide (method = http.MethodGet) then op.Read
  else if bool_decide (method = http.MethodPost) then op.Write
  else if bool_decide (method = http.MethodPut) then op.Write
  else if bool_decide (method = http.MethodPatch) then op.Write
  else if bool_decide (method = http.MethodDelete) then op.Delete
  else op.Read.

(** [classifier] (lines 227-254) *)
Definition classifier (h : http.HandlerFunc) : http.HandlerFunc :=
  fun w r =>
  let analyticsACL := acl.Analytics in
  let operation := classifierOperation (http.Method r) in
  let c := http.ctx r in
  let c := context.WithValue c context.aclCtxKey (context.AnyACLPtr (Some analyticsACL)) in
  let c := context.WithValue c context.opCtxKey (context.AnyOpPtr (Some operation)) in
  let r := http.WithContext r c in
  h w r.

(** The unchecked assertion of [ctxUser] to a pointer to [user.User] *)
Definition asUserPtr (v : context.any) : outcome (option user.User) :=
  match v with
  | context.AnyUserPtr u => Ok u
  | _ => Panic "interface conversion: interface {} is not *user.User"
  end.

(** The unchecked assertion of [ctxOp] to a pointer to [op.Operation] *)
Definition asOpPtr (v : context.any) : outcome (option op.Operation) :=
  match v with
  | context.AnyOpPtr o => Ok o
  | _ => Panic "interface conversion: interface {} is not *op.Operation"
  end.

Definition validateOpMsg (u : user.User) (operation : op.Operation) : string :=
  "user with user_id=" +:+ user.UserId u +:+ " does not have '"
    +:+ op.String operation +:+ "' op access".

(** [validateOp] (lines 262-291) *)
Definition validateOp (h : http.HandlerFunc) : http.HandlerFunc :=
  fun w r =>
  match context.Value (http.ctx r) context.userCtxKey with
  | None => internalServerError w
  | Some ctxUser =>
      let! u := asUserPtr ctxUser in
      match context.Value (http.ctx r) context.opCtxKey with
      | None => internalServerError w
      | Some ctxOp =>
          let! operation := asOpPtr ctxOp in
          let! uv := deref u in
          let! operationv := deref operation in
          if negb (op.Contains (user.Ops uv) operationv) then
            Ok (util.WriteBackMessage w (validateOpMsg uv operationv)
                  http.StatusUnauthorized, [])
          else h w r
      end
  end.

Definition validateACLMsg (u : user.User) : string :=
  "user with " +:+ dq +:+ "user_id" +:+ dq +:+ "=" +:+ dq +:+ user.UserId u +:+ dq
    +:+ " does not have '" +:+ acl.String acl.Analytics +:+ "' acl".

(** [validateACL] (lines 298-319) *)
Definition validateACL (h : http.HandlerFunc) : http.HandlerFunc :=
  fun w r =>
  match context.Value (http.ctx r) context.userCtxKey with
  | None => internalServerError w
  | Some ctxUser =>
      let! u := asUserPtr ctxUser in
      let! uv := deref u in
      if negb (acl.Contains (user.ACLs uv) acl.Analytics) then
        Ok (util.WriteBackMessage w (validateACLMsg uv) http.StatusUnauthorized, [])
      else h w r
  end.

End analytics.

(** ** Package users: the principal patch handlers *)
Module users.

(** A Go [error], known by its message ([err.Error()]). *)
Definition error : Type := string.

Inductive result (A : Type) : Type :=
| Val (a : A)
| Err (e : error).
Arguments Val {A} a.
Arguments Err {A} e.

(** What a patch ([map[string]interface{}]) holds under a key. *)
Inductive patchValue : Type :=
| PACLs (l : list acl.ACL)
| PCategories (l : list category.Category)
| POps (l : list op.Operation)
| PStrings (l : list string)
| PString (s : string)
| PBool (b : bool).

(** The collaborators of the handlers outside the sources: the JSON
    decoder, the methods [GetPatch] and [ValidateCategories] of
    [user.User], and the store behind [u.es] with its state.  [getUser]
    only reads the store; [patchUser] may change it. *)
Class Backend : Type := {
  store : Type;
  json_Unmarshal_User : list Byte.byte -> option user.User;
  GetPatch : user.User -> result (gmap string patchValue);
  ValidateCategories : user.User -> list category.Category -> option error;
  es_getUser : store -> string -> result user.User;
  es_patchUser : store -> string -> gmap string patchValue -> result (list Byte.byte) * store
}.

Section handlers.
Context `{Backend}.

(** A handler of this package: the writer and the store afterwards. *)
Definition handler : Type :=
  http.ResponseWriter -> http.Request -> store -> http.ResponseWriter * store.

(** [username, _, _ := r.BasicAuth()] *)
Definition basicAuthUsername (r : http.Request) : string :=
  match http.BasicAuth r with
  | Some (username, _) => username
  | None => EmptyString
  end.

(** [patchUser] (part_001, lines 140-205) *)
Definition patchUser : handler :=
  fun w r st =>
  let username := basicAuthUsername r in
  match http.ReqBody r with
  | None => (util.WriteBackError w "can't read request body" http.StatusBadRequest, st)
  | Some body =>
  match json_Unmarshal_User body with
  | None => (util.WriteBackError w "can't parse request body" http.StatusBadRequest, st)
  | Some userBody =>
  match GetPatch userBody with
  | Err err => (util.WriteBackError w err http.StatusBadRequest, st)
  | Val patch =>
      let callStore :=
        match es_patchUser st username patch with
        | (Val raw, st') => (util.WriteBackRaw w raw http.StatusOK, st')
        | (Err _, st') =>
            (util.WriteBackError w
               ("user with " +:+ dq +:+ "username" +:+ dq +:+ "=" +:+ dq +:+ username
                  +:+ dq +:+ " Not Found") http.StatusNotFound, st')
        end in
      match patch !! "acls", patch !! "categories" with
      | None, Some patchCategories =>
          match es_getUser st username with
          | Err _ =>
              (util.WriteBackError w
                 ("an error occurred while fetching user with username=" +:+ dq
                    +:+ username +:+ dq) http.StatusInternalServerError, st)
          | Val reqUser =>
              match patchCategories with
              | PCategories categories =>
                  match ValidateCategories reqUser categories with
                  | Some err => (util.WriteBackError w err http.StatusBadRequest, st)
                  | None => callStore
                  end
              | _ =>
                  (util.WriteBackError w
                     ("an error occurred while validating categories patch for user "
                        +:+ dq +:+ username +:+ dq) http.StatusInternalServerError, st)
              end
          end
      | _, _ => callStore
      end
  end end end.

(** [patchUserWithUsername] (part_001, lines 207-277) *)
Definition patchUserWithUsername : handler :=
  fun w r st =>
  match http.Vars r !! "username" with
  | None =>
      (util.WriteBackError w ("can't patch user without a " +:+ dq +:+ "username" +:+ dq)
         http.StatusBadRequest, st)
  | Some username =>
  match http.ReqBody r with
  | None => (util.WriteBackError w "can't read request body" http.StatusBadRequest, st)
  | Some body =>
  match json_Unmarshal_User body with
  | None => (util.WriteBackError w "can't parse request body" http.StatusBadRequest, st)
  | Some userBody =>
  match GetPatch userBody with
  | Err err => (util.WriteBackError w err http.StatusBadRequest, st)
  | Val patch =>
      let callStore :=
        match es_patchUser st username patch with
        | (Val raw, st') => (util.WriteBackRaw w raw http.StatusOK, st')
        | (Err _, st') =>
            (util.WriteBackError w
               ("user with " +:+ dq +:+ "username" +:+ dq +:+ "=" +:+ dq +:+ username
                  +:+ dq +:+ " not found") http.StatusNotFound, st')
        end in
      match patch !! "acls", patch !! "categories" with
      | None, Some patchCategories =>
          match es_getUser st username with
          | Err _ =>
              (util.WriteBackError w
                 ("an error occurred while fetching user with username=" +:+ dq
                    +:+ username +:+ dq) http.StatusInternalServerError, st)
          | Val reqUser =>
              match patchCategories with
              | PCategories categories =>
                  match ValidateCategories reqUser categories with
                  | Some err => (util.WriteBackError w err http.StatusBadRequest, st)
                  | None => callStore
                  end
              | _ =>
                  (util.WriteBackError w
                     ("an error occurred while validating categories patch for user "
                        +:+ dq +:+ username +:+ dq) http.StatusInternalServerError, st)
              end
          end
      | _, _ => callStore
      end
  end end end end.

End handlers.

(** *** The other handlers of the file *)

(** [user.Options]: the functional options [postUser] collects for
    [user.New]. *)
Inductive Options : Type :=
| SetEmail (email : string)
| SetIsAdmin (isAdmin : bool)
| SetACLs (acls : list acl.ACL)
| SetCategories (categories : list category.Category)
| SetOps (ops : list op.Operation)
| SetIndices (indices : list string).

(** A request body decoded into a [user.User], with, for each slice field
    the handler compares with nil, whether the decoder left it non-nil. *)
Record decoded : Type := {
  decodedUser : user.User;
  hasACLs : bool;
  hasCategories : bool;
  hasOps : bool;
  hasIndices : bool
}.

(** The further collaborators of the handlers outside the sources:
    [user.FromContext] (its nil error comes with a user), [json.Marshal] on a
    user, the decoder of a posted body, [user.New], and the store's
    [getRawUser] (which only reads), [postUser] and [deleteUser]. *)
Class Directory `{Backend} : Type := {
  user_FromContext : context.Context -> result user.User;
  json_Marshal_User : user.User -> result (list Byte.byte);
  json_Unmarshal_decoded : list Byte.byte -> option decoded;
  user_New : string -> string -> list Options -> result user.User;
  es_getRawUser : store -> string -> result (list Byte.byte);
  es_postUser : store -> user.User -> (bool * option error) * store;
  es_deleteUser : store -> string -> (bool * option error) * store
}.

Section directory.
Context `{Directory}.

(** [%v] of an [error] that may be nil. *)
Definition showError (err : option error) : string :=
  match err with
  | Some e => e
  | None => "<nil>"
  end.

(** [getUser] (part_001, lines 16-45) *)
Definition getUser : handler :=
  fun w r st =>
  let username := basicAuthUsername r in
  match user_FromContext (http.ctx r) with
  | Val reqUser =>
      match json_Marshal_User reqUser with
      | Err _ =>
          (util.WriteBackError w "error parsing the context user object"
             http.StatusInternalServerError, st)
      | Val rawUser => (util.WriteBackRaw w rawUser http.StatusOK, st)
      end
  | Err _ =>
      match es_getRawUser st username with
      | Err _ =>
          (util.WriteBackError w
             ("user with " +:+ dq +:+ "username" +:+ dq +:+ "=" +:+ dq +:+ username
                +:+ dq +:+ " Not Found") http.StatusNotFound, st)
      | Val rawUser => (util.WriteBackRaw w rawUser http.StatusOK, st)
      end
  end.

(** [getUserWithUsername] (part_001, lines 47-65) *)
Definition getUserWithUsername : handler :=
  fun w r st =>
  match http.Vars r !! "username" with
  | None =>
      (util.WriteBackError w ("can't get a user without a " +:+ dq +:+ "username" +:+ dq)
         http.StatusBadRequest, st)
  | Some username =>
      match es_getRawUser st username with
      | Err _ =>
          (util.WriteBackError w
             ("user with " +:+ dq +:+ "username" +:+ dq +:+ "=" +:+ dq +:+ username
                +:+ dq +:+ " not found") http.StatusNotFound, st)
      | Val rawUser => (util.WriteBackRaw w rawUser http.StatusOK, st)
      end
  end.

(** The options of lines 86-103, in the order they are appended. *)
Definition postOptions (d : decoded) : list Options :=
  let userBody := decodedUser d in
  let opts := [SetEmail (user.Email userBody)] in
  let opts :=
    match user.IsAdmin userBody with
    | Some isAdmin => (opts ++ [SetIsAdmin isAdmin])%list
    | None => opts
    end in
  let opts := if hasACLs d then (opts ++ [SetACLs (user.ACLs userBody)])%list else opts in
  let opts :=
    if hasCategories d then (opts ++ [SetCategories (user.Categories userBody)])%list
    else opts in
  let opts := if hasOps d then (opts ++ [SetOps (user.Ops userBody)])%list else opts in
  let opts :=
    if hasIndices d then (opts ++ [SetIndices (user.Indices userBody)])%list else opts in
  opts.

(** [postUser] (part_001, lines 67-138) *)
Definition postUser : handler :=
  fun w r st =>
  match http.ReqBody r with
  | None => (util.WriteBackError w "can't read request body" http.StatusBadRequest, st)
  | Some body =>
  match json_Unmarshal_decoded body with
  | None => (util.WriteBackError w "can't parse request body" http.StatusBadRequest, st)
  | Some d =>
      let userBody := decodedUser d in
      let opts := postOptions d in
      if bool_decide (user.Username userBody = EmptyString) then
        (util.WriteBackError w
           ("can't create a user without a " +:+ dq +:+ "username" +:+ dq)
           http.StatusBadRequest, st)
      else if bool_decide (user.Password userBody = EmptyString) then
        (util.WriteBackError w
           ("user " +:+ dq +:+ "password" +:+ dq +:+ " shouldn't be empty")
           http.StatusBadRequest, st)
      else
        match user_New (user.Username userBody) (user.Password userBody) opts with
        | Err err =>
            (util.WriteBackError w ("an error occurred while creating user: " +:+ err)
               http.StatusBadRequest, st)
        | Val newUser =>
            match json_Marshal_User newUser with
            | Err _ =>
                (util.WriteBackError w
                   ("an error occurred while creating a user with " +:+ dq +:+ "username"
                      +:+ dq +:+ "=" +:+ dq +:+ user.Username userBody +:+ dq)
                   http.StatusInternalServerError, st)
            | Val rawUser =>
                match es_postUser st newUser with
                | ((ok, err), st') =>
                    if ok && bool_decide (err = None) then
                      (util.WriteBackRaw w rawUser http.StatusCreated, st')
                    else
                      (util.WriteBackError w
                         ("an error occurred while creating a user with " +:+ dq
                            +:+ "username" +:+ dq +:+ "=" +:+ dq
                            +:+ user.Username userBody +:+ dq +:+ ": " +:+ showError err)
                         http.StatusInternalServerError, st')
                end
            end
        end
  end end.

(** [deleteUser] (part_001, lines 279-294) *)
Definition deleteUser : handler :=
  fun w r st =>
  let username := basicAuthUsername r in
  match es_deleteUser st username with
  | ((ok, err), st') =>
      if ok && bool_decide (err = None) then
        (util.WriteBackMessage w
           ("user with " +:+ dq +:+ "username" +:+ dq +:+ "=" +:+ dq +:+ username
              +:+ dq +:+ " deleted") http.StatusOK, st')
      else
        (util.WriteBackError w
           ("user with " +:+ dq +:+ "username" +:+ dq +:+ "=" +:+ dq +:+ username
              +:+ dq +:+ " not found") http.StatusNotFound, st')
  end.

(** [deleteUserWithUsername] (part_001, lines 296-316) *)
Definition deleteUserWithUsername : handler :=
  fun w r st =>
  match http.Vars r !! "username" with
  | None =>
      (util.WriteBackError w
         ("can't delete a user without a " +:+ dq +:+ "username" +:+ dq)
         http.StatusBadRequest, st)
  | Some username =>
      match es_deleteUser st username with
      | ((ok, err), st') =>
          if ok && bool_decide (err = None) then
            (util.WriteBackMessage w
               ("user with " +:+ dq +:+ "username" +:+ dq +:+ "=" +:+ dq +:+ username
                  +:+ dq +:+ " deleted") http.StatusOK, st')
          else
            (util.WriteBackError w
               ("user with " +:+ dq +:+ "username" +:+ dq +:+ "=" +:+ dq +:+ username
                  +:+ dq +:+ " Not Found") http.StatusNotFound, st')
      end
  end.

End directory.

End users.

(** ** Concrete principals, requests and collaborators

    The inputs of the spec's scenarios, used to run the definitions. *)
Module scenario.

Definition body (s : string) : list Byte.byte := String.list_byte_of_string s.

Definition carol : user.User :=
  {| user.UserId := "carol"; user.Username := "carol"; user.Password := "secret";
     user.Email := "carol@example.com"; user.IsAdmin := Some false;
     user.ACLs := [acl.User; acl.Analytics]; user.Categories := [];
     user.Ops := [op.Read]; user.Indices := [] |}.

(** An administrator who holds no operation and no category. *)
Definition alice : user.User :=
  {| user.UserId := "alice"; user.Username := "alice"; user.Password := "secret";
     user.Email := "alice@example.com"; user.IsAdmin := Some true;
     user.ACLs := []; user.Categories := []; user.Ops := []; user.Indices := [] |}.

(** A user whose only category is search. *)
Definition dave : user.User :=
  {| user.UserId := "dave"; user.Username := "dave"; user.Password := "secret";
     user.Email := "dave@example.com"; user.IsAdmin := Some false;
     user.ACLs := [acl.Search]; user.Categories := []; user.Ops := [op.Read; op.Write];
     user.Indices := [] |}.

Definition request (method uri : string) (headers : list (string * list string))
    (c : context.Context) : http.Request :=
  {| http.Method := method; http.RequestURI := uri;
     http.ReqHeader := list_to_map headers; http.ctx := c;
     http.RemoteAddr := "203.0.113.7:4711"; http.ReqBody := Some [];
     http.BasicAuth := None; http.Vars := ∅ |}.

(** A downstream handler that answers 200 with a small body and sets one
    header. *)
Definition upstream : http.HandlerFunc :=
  fun w r =>
  Ok (http.Write (http.WriteHeader (http.SetHeader w "Content-Type" "application/json") 200)
        (body "{took:7}"), []).

(** A downstream handler that answers 404. *)
Definition missing : http.HandlerFunc :=
  fun w r => Ok (http.Write (http.WriteHeader w 404) (body "no such index"), []).

Definition guarded (u : user.User) (o : op.Operation) : context.Context :=
  context.WithValue
    (context.WithValue context.Background context.userCtxKey (context.AnyUserPtr (Some u)))
    context.opCtxKey (context.AnyOpPtr (Some o)).

(** Scenario 3: carol issues [DELETE /_user/carol]. *)
Definition carolDelete : http.Request :=
  request "DELETE" "/_user/carol" [] (guarded carol op.Delete).

(** dave, who lacks the analytics category, issues
    [GET /_analytics/overview]. *)
Definition daveGet : http.Request :=
  request "GET" "/_analytics/overview" [] (guarded dave op.Read).

(** The administrator issues [GET /_analytics/overview]. *)
Definition aliceGet : http.Request :=
  request "GET" "/_analytics/overview" [] (guarded alice op.Read).

Definition searching (indices : list string) : context.Context :=
  context.WithValue
    (context.WithValue context.Background context.aclCtxKey
       (context.AnyACLPtr (Some acl.Search)))
    context.indexCtxKey (context.AnyStrings indices).

(** Scenario 4: [GET /myidx/_search] with [X-Search-Query: shoes]. *)
Definition shoes : http.Request :=
  request "GET" "/myidx/_search" [("X-Search-Query", ["shoes"])] (searching ["myidx"]).

(** Scenario 5: the click that follows it. *)
Definition click : http.Request :=
  request "GET" "/myidx/_search"
    [("X-Search-Id", ["6ba7b810-9dad-11d1-80b4-00c04fd430c8"]);
     ("X-Search-Click", ["true"]); ("X-Search-Click-Position", ["3"])]
    (searching ["myidx"]).

(** The search of scenario 4 on a chain that published no indices. *)
Definition shoesWithoutIndices : http.Request :=
  request "GET" "/myidx/_search" [("X-Search-Query", ["shoes"])]
    (context.WithValue context.Background context.aclCtxKey
       (context.AnyACLPtr (Some acl.Search))).

(** What the response recorder holds after [upstream] has served the
    request. *)
Definition recorded : http.ResponseWriter :=
  http.Write
    (http.WriteHeader (http.SetHeader httptest.NewRecorder "Content-Type" "application/json")
       200)
    (body "{took:7}").

(** A request whose context holds a string where the user is expected. *)
Definition mistyped : http.Request :=
  request "GET" "/_analytics/overview" []
    (context.WithValue
       (context.WithValue context.Background context.userCtxKey (context.AnyString "carol"))
       context.opCtxKey (context.AnyOpPtr (Some op.Read))).

(** A search with neither header. *)
Definition plain : http.Request :=
  request "GET" "/myidx/_search" [] (searching ["myidx"]).


Definition twoHits : analytics.searchResponse :=
  {| analytics.Took := 7%float; analytics.Hits_Total := 2;
     analytics.Hits_Hits :=
       [ {| analytics.Source := [("k", analytics.JNumber 1%float)];
            analytics.Type_ := "t"; analytics.Id := "a" |};
         {| analytics.Source := [("k", analytics.JNumber 2%float)];
            analytics.Type_ := "t"; analytics.Id := "b" |} ] |}.

(** Collaborators for the runs: every body decodes to the two hits of
    scenario 4, or to an envelope without responses. *)
#[local] Instance external : analytics.External :=
  {| analytics.json_Unmarshal_searchResponse := fun _ => Some twoHits;
     analytics.json_Unmarshal_mSearchResponse :=
       fun _ => Some {| analytics.Responses := [] |};
     analytics.json_Marshal := fun _ => Some "{k:1}";
     analytics.strconv_Atoi :=
       fun s => if bool_decide (s = "3") then Some 3 else None;
     analytics.parse := fun _ => ∅;
     analytics.iplookup_FromRequest := http.RemoteAddr;
     analytics.iplookup_GetCoordinates := fun _ => None;
     analytics.iplookup_GetCountry := fun _ => Some "NL" |}.

(** The record of scenario 4, as [recordResponse] builds it. *)
Definition shoesRecord : gmap string analytics.value :=
  match analytics.recordResponse "2019/07/01 10:00:00"
          "6ba7b811-9dad-11d1-80b4-00c04fd430c8" EmptyString recorded shoes with
  | Ok (analytics.Indexed _ record) => record
  | _ => ∅
  end.

(** Modelled from the spec: the category to acl table is not among the
    sources; scenario 6 has category user require [acl.User]. *)
Definition categoryACL (c : category.Category) : option acl.ACL :=
  if bool_decide (c = "user") then Some acl.User
  else if bool_decide (c = "search") then Some acl.Search
  else if bool_decide (c = "analytics") then Some acl.Analytics
  else None.

(** Modelled from the spec: [ValidateCategories] is not among the sources;
    every category must be admitted by one of the principal's acls, and
    the error names the first that is not. *)
Fixpoint validateCategories (u : user.User) (categories : list category.Category)
  : option users.error :=
  match categories with
  | [] => None
  | c :: rest =>
      match categoryACL c with
      | Some a =>
          if acl.Contains (user.ACLs u) a then validateCategories u rest
          else Some ("user does not have the acl for category '" +:+ c +:+ "'")
      | None => Some ("unknown category '" +:+ c +:+ "'")
      end
  end.

(** The principal after a patch of its categories. *)
Definition patched (u : user.User) (patch : gmap string users.patchValue) : user.User :=
  match patch !! "categories" with
  | Some (users.PCategories categories) =>
      {| user.UserId := user.UserId u; user.Username := user.Username u;
         user.Password := user.Password u; user.Email := user.Email u;
         user.IsAdmin := user.IsAdmin u; user.ACLs := user.ACLs u;
         user.Categories := categories; user.Ops := user.Ops u;
         user.Indices := user.Indices u |}
  | _ => u
  end.

(** A store that keeps principals by user name; the decoder reads every
    body as the patch [categories=[user]] of scenario 6. *)
#[local] Instance backend : users.Backend :=
  {| users.store := gmap string user.User;
     users.json_Unmarshal_User :=
       fun _ => Some {| user.UserId := EmptyString; user.Username := EmptyString;
                        user.Password := EmptyString; user.Email := EmptyString;
                        user.IsAdmin := None; user.ACLs := [];
                        user.Categories := ["user"]; user.Ops := []; user.Indices := [] |};
     users.GetPatch :=
       fun u => users.Val (<["categories" := users.PCategories (user.Categories u)]> ∅);
     users.ValidateCategories := validateCategories;
     users.es_getUser :=
       fun st name => match st !! name with
                      | Some u => users.Val u
                      | None => users.Err "not found"
                      end;
     users.es_patchUser :=
       fun st name patch =>
         match st !! name with
         | Some u => (users.Val (body "{patched}"), <[name := patched u patch]> st)
         | None => (users.Err "not found", st)
         end |}.

Definition principals : gmap string user.User := <["dave" := dave]> ∅.

(** Scenario 6: dave patches his own principal with [categories=[user]]. *)
Definition davePatch : http.Request :=
  {| http.Method := "PATCH"; http.RequestURI := "/_user"; http.ReqHeader := ∅;
     http.ctx := context.Background; http.RemoteAddr := "203.0.113.7:4711";
     http.ReqBody := Some (body "{categories:[user]}");
     http.BasicAuth := Some ("dave", "secret"); http.Vars := ∅ |}.

(** The same patch addressed as [PATCH /_user/dave]. *)
Definition davePatchByName : http.Request :=
  {| http.Method := "PATCH"; http.RequestURI := "/_user/dave"; http.ReqHeader := ∅;
     http.ctx := context.Background; http.RemoteAddr := "203.0.113.7:4711";
     http.ReqBody := Some (body "{categories:[user]}");
     http.BasicAuth := Some ("alice", "secret"); http.Vars := <["username" := "dave"]> ∅ |}.

(** Collaborators for the other handlers.  The decoder reads a posted body
    as the new user's name ([-] standing for a body without one); the store
    keeps principals by user name. *)
#[local] Instance directory : users.Directory (H := backend) :=
  {| users.user_FromContext :=
       fun c => match context.Value c context.userCtxKey with
                | Some (context.AnyUserPtr (Some u)) => users.Val u
                | _ => users.Err "*user.User not found in request context"
                end;
     users.json_Marshal_User :=
       fun u => users.Val (body ("{username:" +:+ user.Username u +:+ "}"));
     users.json_Unmarshal_decoded :=
       fun b =>
         let name := String.string_of_list_byte b in
         Some {| users.decodedUser :=
                   {| user.UserId := EmptyString;
                      user.Username := if bool_decide (name = "-") then EmptyString else name;
                      user.Password := "secret"; user.Email := EmptyString;
                      user.IsAdmin := None; user.ACLs := []; user.Categories := [];
                      user.Ops := []; user.Indices := [] |};
                 users.hasACLs := false; users.hasCategories := false;
                 users.hasOps := false; users.hasIndices := false |};
     users.user_New :=
       fun name password opts =>
         users.Val {| user.UserId := name; user.Username := name;
                      user.Password := password; user.Email := EmptyString;
                      user.IsAdmin := Some false; user.ACLs := [acl.Search];
                      user.Categories := []; user.Ops := [op.Read]; user.Indices := [] |};
     users.es_getRawUser :=
       fun (st : users.store (Backend := backend)) name =>
         match (st : gmap string user.User) !! name with
         | Some u => users.Val (body ("{username:" +:+ user.Username u +:+ "}"))
         | None => users.Err "not found"
         end;
     users.es_postUser :=
       fun (st : users.store (Backend := backend)) u =>
         match (st : gmap string user.User) !! user.Username u with
         | None => ((true, None), <[user.Username u := u]> (st : gmap string user.User))
         | Some _ => ((false, Some "version conflict"), st)
         end;
     users.es_deleteUser :=
       fun (st : users.store (Backend := backend)) name =>
         match (st : gmap string user.User) !! name with
         | Some _ => ((true, None), delete name (st : gmap string user.User))
         | None => ((false, None), st)
         end |}.

(** A request of the users plugin. *)
Definition usersRequest (method uri : string) (c : context.Context)
    (auth : option (string * string)) (vars : list (string * string))
    (payload : option (list Byte.byte)) : http.Request :=
  {| http.Method := method; http.RequestURI := uri; http.ReqHeader := ∅;
     http.ctx := c; http.RemoteAddr := "203.0.113.7:4711"; http.ReqBody := payload;
     http.BasicAuth := auth; http.Vars := list_to_map vars |}.

(** A backend whose decoder tells patches apart by their body: [both] sets
    acls and categories, [search] sets the category search, an empty body
    does not decode, a body [named] also sets the user name (which
    [GetPatch] refuses), anything else sets the category user. *)
Definition patchBody (acls : list acl.ACL) (categories : list category.Category)
    (name : string) : user.User :=
  {| user.UserId := EmptyString; user.Username := name; user.Password := EmptyString;
     user.Email := EmptyString; user.IsAdmin := None; user.ACLs := acls;
     user.Categories := categories; user.Ops := []; user.Indices := [] |}.

Definition patchOf (u : user.User) : gmap string users.patchValue :=
  let patch : gmap string users.patchValue := ∅ in
  let patch :=
    match user.ACLs u with
    | [] => patch
    | acls => <["acls" := users.PACLs acls]> patch
    end in
  match user.Categories u with
  | [] => patch
  | categories => <["categories" := users.PCategories categories]> patch
  end.

#[local] Instance openBackend : users.Backend :=
  {| users.store := gmap string user.User;
     users.json_Unmarshal_User :=
       fun b =>
         let text := String.string_of_list_byte b in
         if bool_decide (text = EmptyString) then None
         else if bool_decide (text = "both") then
           Some (patchBody [acl.User] ["user"] EmptyString)
         else if bool_decide (text = "search") then
           Some (patchBody [] ["search"] EmptyString)
         else if bool_decide (text = "named") then Some (patchBody [] ["user"] "eve")
         else Some (patchBody [] ["user"] EmptyString);
     users.GetPatch :=
       fun u => if bool_decide (user.Username u = EmptyString) then users.Val (patchOf u)
                else users.Err "patch of username is not supported";
     users.ValidateCategories := validateCategories;
     users.es_getUser :=
       fun st name => match st !! name with
                      | Some u => users.Val u
                      | None => users.Err "not found"
                      end;
     users.es_patchUser :=
       fun st name patch =>
         match st !! name with
         | Some u => (users.Val (body "{patched}"), <[name := patched u patch]> st)
         | None => (users.Err "not found", st)
         end |}.

End scenario.

(** ** Observations on outcomes *)

(** The status of the writer an outcome ends with; 0 for a panic. *)
Definition statusOf (o : outcome (http.ResponseWriter * list http.Goroutine)) : Z :=
  match o with
  | Ok (w, _) => http.Code w
  | Panic _ => 0
  end.

(** Whether [Recorder] serves the request through the response recorder:
    the negation of the test of line 68. *)
Definition teed (reqACL : acl.ACL) (r : http.Request) : bool :=
  bool_decide (reqACL = acl.Search)
  && negb (bool_decide (http.HeaderGet (http.ReqHeader r) analytics.XSearchQuery = EmptyString)
           && bool_decide (http.HeaderGet (http.ReqHeader r) analytics.XSearchId = EmptyString)).

(** The document id [Recorder] chooses (lines 73-76). *)
Definition effectiveSearchId (uuid : string) (r : http.Request) : string :=
  if bool_decide (http.HeaderGet (http.ReqHeader r) analytics.XSearchId = EmptyString)
  then uuid
  else http.HeaderGet (http.ReqHeader r) analytics.XSearchId.

(** The response body after the three byte-level renamings of lines
    103-105. *)
Definition renamed (respBody : list Byte.byte) : list Byte.byte :=
  bytes.Replace
    (bytes.Replace
       (bytes.Replace respBody (String.list_byte_of_string "_source")
          (String.list_byte_of_string "source"))
       (String.list_byte_of_string "_type") (String.list_byte_of_string "type"))
    (String.list_byte_of_string "_id") (String.list_byte_of_string "id").

(** The construction of the record, one step per assignment of lines
    158-208, and the block of lines 145-156; [recordResponse] is shown
    below to be their composition. *)
Section steps.
Context `{analytics.External}.

Definition addIP (r : http.Request) (record : gmap string analytics.value)
  : gmap string analytics.value :=
  <["ip" := analytics.VString (analytics.iplookup_FromRequest r)]> record.

Definition addLocation (r : http.Request) (record : gmap string analytics.value)
  : gmap string analytics.value :=
  match analytics.iplookup_GetCoordinates (analytics.iplookup_FromRequest r) with
  | None => record
  | Some coordinates => <["location" := analytics.VString coordinates]> record
  end.

Definition addCountry (r : http.Request) (record : gmap string analytics.value)
  : gmap string analytics.value :=
  match analytics.iplookup_GetCountry (analytics.iplookup_FromRequest r) with
  | None => record
  | Some country => <["country" := analytics.VString country]> record
  end.

Definition addClick (r : http.Request) (record : gmap string analytics.value)
  : gmap string analytics.value :=
  if bool_decide (http.HeaderGet (http.ReqHeader r) analytics.XSearchClick = EmptyString)
  then record
  else match strconv.ParseBool (http.HeaderGet (http.ReqHeader r) analytics.XSearchClick) with
       | Some clicked => <["click" := analytics.VBool clicked]> record
       | None => record
       end.

Definition addClickPosition (r : http.Request) (record : gmap string analytics.value)
  : gmap string analytics.value :=
  if bool_decide
       (http.HeaderGet (http.ReqHeader r) analytics.XSearchClickPosition = EmptyString)
  then record
  else match analytics.strconv_Atoi
               (http.HeaderGet (http.ReqHeader r) analytics.XSearchClickPosition) with
       | Some pos => <["click_position" := analytics.VInt pos]> record
       | None => record
       end.

Definition addConversion (r : http.Request) (record : gmap string analytics.value)
  : gmap string analytics.value :=
  if bool_decide
       (http.HeaderGet (http.ReqHeader r) analytics.XSearchConversion = EmptyString)
  then record
  else match strconv.ParseBool
               (http.HeaderGet (http.ReqHeader r) analytics.XSearchConversion) with
       | Some conversion => <["conversion" := analytics.VBool conversion]> record
       | None => record
       end.

Definition addCustomEvents (r : http.Request) (record : gmap string analytics.value)
  : gmap string analytics.value :=
  if bool_decide
       (0 < size (analytics.parse
                    (http.HeaderGet (http.ReqHeader r) analytics.XSearchCustomEvent)))%nat
  then <["custom_events" :=
           analytics.VMap
             (analytics.parse
                (http.HeaderGet (http.ReqHeader r) analytics.XSearchCustomEvent))]> record
  else record.

Definition requestFields (r : http.Request) (record : gmap string analytics.value)
  : gmap string analytics.value :=
  addCustomEvents r
    (addConversion r
       (addClickPosition r (addClick r (addCountry r (addLocation r (addIP r record)))))).

Definition addFilters (r : http.Request) (record : gmap string analytics.value)
  : gmap string analytics.value :=
  if bool_decide
       (0 < size (analytics.parse
                    (http.HeaderGet (http.ReqHeader r) analytics.XSearchFilters)))%nat
  then <["search_filters" :=
           analytics.VMap
             (analytics.parse
                (http.HeaderGet (http.ReqHeader r) analytics.XSearchFilters))]> record
  else record.

Definition originFields (now : string) (r : http.Request)
    (esResponse : analytics.searchResponse) (indices : list string)
    (record : gmap string analytics.value) : gmap string analytics.value :=
  addFilters r
    (<["datestamp" := analytics.VString now]>
       (<["total_hits" := analytics.VInt (analytics.Hits_Total esResponse)]>
          (<["hits_in_response" :=
               analytics.VHits
                 (analytics.recordHits (take 10 (analytics.Hits_Hits esResponse)))]>
             (<["search_query" :=
                  analytics.VString
                    (http.HeaderGet (http.ReqHeader r) analytics.XSearchQuery)]>
                (<["indices" := analytics.VStrings indices]> record))))).

End steps.

(** The last step of both patch handlers: the call of [es.patchUser] and
    the answer built from its result; [notFound] is the handler's spelling
    of the not-found message. *)
Definition storePatch `{users.Backend} (w : http.ResponseWriter) (st : users.store)
    (username : string) (patch : gmap string users.patchValue) (notFound : string)
  : http.ResponseWriter * users.store :=
  match users.es_patchUser st username patch with
  | (users.Val raw, st') => (util.WriteBackRaw w raw http.StatusOK, st')
  | (users.Err _, st') =>
      (util.WriteBackError w
         ("user with " +:+ dq +:+ "username" +:+ dq +:+ "=" +:+ dq +:+ username
            +:+ dq +:+ notFound) http.StatusNotFound, st')
  end.

(** The keys [recordResponse] may write. *)
Definition recordKeys : list string :=
  ["took"; "indices"; "search_query"; "hits_in_response"; "total_hits"; "datestamp";
   "search_filters"; "ip"; "location"; "country"; "click"; "click_position";
   "conversion"; "custom_events"].

(** One hit as the record keeps it. *)
Definition recordedHit (id type source : string) : gmap string string :=
  <["source" := source]> (<["type" := type]> (<["id" := id]> ∅)).

(** The request [classifier] hands to the next handler (lines 247-250). *)
Definition classified (r : http.Request) : http.Request :=
  http.WithContext r
    (context.WithValue
       (context.WithValue (http.ctx r) context.aclCtxKey
          (context.AnyACLPtr (Some acl.Analytics)))
       context.opCtxKey
       (context.AnyOpPtr (Some (analytics.classifierOperation (http.Method r))))).

(** * Properties *)

(** ** Helper lemmas *)

Lemma Code_WriteBackRaw (w : http.ResponseWriter) (raw : list Byte.byte) (code : Z) :
  http.wroteHeader w = false ->
  http.Code (util.WriteBackRaw w raw code) = code.
Proof.
  intros Hw. unfold util.WriteBackRaw, http.Write, http.WriteHeader. simpl.
  rewrite Hw. reflexivity.
Qed.

Lemma Code_WriteBackMessage (w : http.ResponseWriter) (msg : string) (code : Z) :
  http.wroteHeader w = false ->
  http.Code (util.WriteBackMessage w msg code) = code.
Proof. apply Code_WriteBackRaw. Qed.

Lemma Code_WriteBackError (w : http.ResponseWriter) (msg : string) (code : Z) :
  http.wroteHeader w = false ->
  http.Code (util.WriteBackError w msg code) = code.
Proof. apply Code_WriteBackRaw. Qed.

(** The two middlewares on a well-formed context. *)
Lemma validate_op_acl_shape (h : http.HandlerFunc) (w : http.ResponseWriter)
    (r : http.Request) (u : user.User) (operation : op.Operation) :
  context.Value (http.ctx r) context.userCtxKey = Some (context.AnyUserPtr (Some u)) ->
  context.Value (http.ctx r) context.opCtxKey = Some (context.AnyOpPtr (Some operation)) ->
  analytics.validateOp h w r =
    (if op.Contains (user.Ops u) operation then h w r
     else Ok (util.WriteBackMessage w (analytics.validateOpMsg u operation)
                http.StatusUnauthorized, []))
  /\ analytics.validateACL h w r =
    (if acl.Contains (user.ACLs u) acl.Analytics then h w r
     else Ok (util.WriteBackMessage w (analytics.validateACLMsg u)
                http.StatusUnauthorized, [])).
Proof.
  intros Hu Ho. unfold analytics.validateOp, analytics.validateACL.
  rewrite Hu, Ho. simpl.
  split.
  - destruct (op.Contains (user.Ops u) operation); reflexivity.
  - destruct (acl.Contains (user.ACLs u) acl.Analytics); reflexivity.
Qed.

(** ** The classifier *)

(** C3: the classifier's switch is a total function of the method: GET
    gives Read, POST, PUT and PATCH give Write, DELETE gives Delete, every
    other method gives Read; and the classifier always hands the request
    on, with that operation published in the context. *)
Theorem classifier_operation_table :
  analytics.classifierOperation "GET" = op.Read
  /\ analytics.classifierOperation "POST" = op.Write
  /\ analytics.classifierOperation "PUT" = op.Write
  /\ analytics.classifierOperation "PATCH" = op.Write
  /\ analytics.classifierOperation "DELETE" = op.Delete
  /\ (forall method : string,
        analytics.classifierOperation method =
          if bool_decide (method ∈ ["GET"; "POST"; "PUT"; "PATCH"; "DELETE"])
          then analytics.classifierOperation method else op.Read)
  /\ (forall (h : http.HandlerFunc) w r,
        exists r',
          analytics.classifier h w r = h w r'
          /\ context.Value (http.ctx r') context.opCtxKey
             = Some (context.AnyOpPtr (Some (analytics.classifierOperation (http.Method r))))).
Proof.
  repeat split; try reflexivity.
  - intros method. case_bool_decide as Hin; [reflexivity|].
    unfold analytics.classifierOperation.
    repeat (case_bool_decide as Hm;
            [exfalso; apply Hin; rewrite Hm; set_solver|clear Hm]).
    reflexivity.
  - intros h w r. eexists. split; [reflexivity|]. reflexivity.
Qed.

(** ** The authorizer: [validateOp] and [validateACL] *)

(** C1, as the code has it: neither middleware reads [IsAdmin].  Whatever
    its value, a request passes [validateOp] exactly when its operation is
    among the principal's ops and passes [validateACL] exactly when
    Analytics is among the principal's acls; otherwise the answer is the
    401 message and the downstream handler is not run. *)
Theorem validate_ignores_isAdmin (h : http.HandlerFunc) (w : http.ResponseWriter)
    (r : http.Request) (u : user.User) (operation : op.Operation) :
  context.Value (http.ctx r) context.userCtxKey = Some (context.AnyUserPtr (Some u)) ->
  context.Value (http.ctx r) context.opCtxKey = Some (context.AnyOpPtr (Some operation)) ->
  analytics.validateOp h w r =
    (if op.Contains (user.Ops u) operation then h w r
     else Ok (util.WriteBackMessage w (analytics.validateOpMsg u operation)
                http.StatusUnauthorized, []))
  /\ analytics.validateACL h w r =
    (if acl.Contains (user.ACLs u) acl.Analytics then h w r
     else Ok (util.WriteBackMessage w (analytics.validateACLMsg u)
                http.StatusUnauthorized, [])).
Proof.
  intros Hu Ho. unfold analytics.validateOp, analytics.validateACL.
  rewrite Hu, Ho.
  cbn [analytics.asUserPtr analytics.asOpPtr analytics.deref bind].
  split.
  - destruct (op.Contains (user.Ops u) operation); reflexivity.
  - destruct (acl.Contains (user.ACLs u) acl.Analytics); reflexivity.
Qed.

Lemma validate_ignores_isAdmin_witness :
  user.IsAdmin scenario.alice = Some true
  /\ analytics.validateOp scenario.upstream http.freshWriter scenario.aliceGet =
       Ok (util.WriteBackMessage http.freshWriter
             "user with user_id=alice does not have 'read' op access" 401, [])
  /\ analytics.validateACL
       scenario.upstream http.freshWriter
       (scenario.request "GET" "/_analytics/overview" []
          (scenario.guarded scenario.carol op.Read))
     = scenario.upstream http.freshWriter
         (scenario.request "GET" "/_analytics/overview" []
            (scenario.guarded scenario.carol op.Read)).
Proof.
  split; [reflexivity|]. split.
  - exact (proj1 (validate_ignores_isAdmin scenario.upstream http.freshWriter
                    scenario.aliceGet scenario.alice op.Read eq_refl eq_refl)).
  - exact (proj2 (validate_ignores_isAdmin scenario.upstream http.freshWriter
                    (scenario.request "GET" "/_analytics/overview" []
                       (scenario.guarded scenario.carol op.Read))
                    scenario.carol op.Read eq_refl eq_refl)).
Defined.

(** C1 as the spec states it fails: an administrator without the
    operation is stopped by [validateOp]. *)
Lemma admin_not_exempt :
  ~ (forall (h : http.HandlerFunc) w r u operation,
       context.Value (http.ctx r) context.userCtxKey = Some (context.AnyUserPtr (Some u)) ->
       context.Value (http.ctx r) context.opCtxKey
         = Some (context.AnyOpPtr (Some operation)) ->
       user.IsAdmin u = Some true ->
       analytics.validateOp h w r = h w r /\ analytics.validateACL h w r = h w r).
Proof.
  intros Hall.
  destruct (Hall scenario.upstream http.freshWriter scenario.aliceGet
              scenario.alice op.Read eq_refl eq_refl eq_refl) as [Hop _].
  apply (f_equal statusOf) in Hop. vm_compute in Hop. discriminate Hop.
Qed.

(** C2, as the code has it: when the principal lacks the operation
    ([validateOp]) or the Analytics acl ([validateACL]), the middleware
    answers with status 401 ([http.StatusUnauthorized]) and the message
    that names the missing operation or acl, and the downstream handler is
    not run: the outcome is the same for every [h]. *)
Theorem authorizer_failure_is_401 (h : http.HandlerFunc) (w : http.ResponseWriter)
    (r : http.Request) (u : user.User) :
  context.Value (http.ctx r) context.userCtxKey = Some (context.AnyUserPtr (Some u)) ->
  http.wroteHeader w = false ->
  (forall operation,
     context.Value (http.ctx r) context.opCtxKey
       = Some (context.AnyOpPtr (Some operation)) ->
     op.Contains (user.Ops u) operation = false ->
     analytics.validateOp h w r =
       Ok (util.WriteBackMessage w
             ("user with user_id=" +:+ user.UserId u +:+ " does not have '"
                +:+ op.String operation +:+ "' op access") 401, [])
     /\ statusOf (analytics.validateOp h w r) = 401)
  /\ (acl.Contains (user.ACLs u) acl.Analytics = false ->
      analytics.validateACL h w r =
        Ok (util.WriteBackMessage w
              ("user with " +:+ dq +:+ "user_id" +:+ dq +:+ "=" +:+ dq +:+ user.UserId u
                 +:+ dq +:+ " does not have '" +:+ acl.String acl.Analytics +:+ "' acl")
              401, [])
      /\ statusOf (analytics.validateACL h w r) = 401).
Proof.
  intros Hu Hw. split.
  - intros operation Ho Hmiss.
    destruct (validate_op_acl_shape h w r u operation Hu Ho) as [Hop _].
    rewrite Hop, Hmiss. split; [reflexivity|].
    unfold statusOf. apply Code_WriteBackMessage. exact Hw.
  - intros Hmiss.
    unfold analytics.validateACL. rewrite Hu.
    cbn [analytics.asUserPtr analytics.deref bind]. rewrite Hmiss. cbn [negb].
    split; [reflexivity|]. unfold statusOf. apply Code_WriteBackMessage. exact Hw.
Qed.

Lemma authorizer_failure_is_401_witness :
  (analytics.validateOp scenario.missing http.freshWriter scenario.carolDelete =
     Ok (util.WriteBackMessage http.freshWriter
           "user with user_id=carol does not have 'delete' op access" 401, [])
   /\ statusOf (analytics.validateOp scenario.missing http.freshWriter scenario.carolDelete)
      = 401)
  /\ (analytics.validateACL scenario.missing http.freshWriter scenario.daveGet =
        Ok (util.WriteBackMessage http.freshWriter
              ("user with " +:+ dq +:+ "user_id" +:+ dq +:+ "=" +:+ dq +:+ "dave" +:+ dq
                 +:+ " does not have 'analytics' acl") 401, [])
      /\ statusOf (analytics.validateACL scenario.missing http.freshWriter scenario.daveGet)
         = 401).
Proof.
  split.
  - exact (proj1 (authorizer_failure_is_401 scenario.missing http.freshWriter
                    scenario.carolDelete scenario.carol eq_refl eq_refl)
             op.Delete eq_refl eq_refl).
  - exact (proj2 (authorizer_failure_is_401 scenario.missing http.freshWriter
                    scenario.daveGet scenario.dave eq_refl eq_refl) eq_refl).
Defined.

(** C2 as the spec states it fails: the status of the refusal is not 403. *)
Lemma authorizer_failure_not_403 :
  ~ (forall (h : http.HandlerFunc) w r u operation,
       context.Value (http.ctx r) context.userCtxKey = Some (context.AnyUserPtr (Some u)) ->
       context.Value (http.ctx r) context.opCtxKey
         = Some (context.AnyOpPtr (Some operation)) ->
       http.wroteHeader w = false ->
       op.Contains (user.Ops u) operation = false ->
       statusOf (analytics.validateOp h w r) = http.StatusForbidden).
Proof.
  intros Hall.
  specialize (Hall scenario.upstream http.freshWriter scenario.carolDelete
                scenario.carol op.Delete eq_refl eq_refl eq_refl eq_refl).
  vm_compute in Hall. discriminate Hall.
Qed.

(** ** The response recorder *)

Lemma Recorder_direct (uuid : string) (h : http.HandlerFunc) (w : http.ResponseWriter)
    (r : http.Request) (reqACL : acl.ACL) :
  context.Value (http.ctx r) context.aclCtxKey
    = Some (context.AnyACLPtr (Some reqACL)) ->
  teed reqACL r = false ->
  analytics.Recorder uuid h w r = h w r.
Proof.
  intros Hacl Hteed. unfold analytics.Recorder. rewrite Hacl.
  cbn [analytics.deref bind]. unfold teed in Hteed.
  destruct (bool_decide (reqACL = acl.Search)); [|reflexivity].
  cbn [andb negb orb] in *. apply negb_false_iff in Hteed. rewrite Hteed. reflexivity.
Qed.

Lemma Recorder_teed (uuid : string) (h : http.HandlerFunc) (w : http.ResponseWriter)
    (r : http.Request) (reqACL : acl.ACL)
    (respRecorder : http.ResponseWriter) (started : list http.Goroutine) :
  context.Value (http.ctx r) context.aclCtxKey
    = Some (context.AnyACLPtr (Some reqACL)) ->
  teed reqACL r = true ->
  h httptest.NewRecorder r = Ok (respRecorder, started) ->
  analytics.Recorder uuid h w r =
    Ok (http.Write
          (http.WriteHeader
             (http.SetHeader
                {| http.HeaderMap := http.HeaderMap respRecorder ∪ http.HeaderMap w;
                   http.snapHeader := http.snapHeader w; http.Code := http.Code w;
                   http.wroteHeader := http.wroteHeader w; http.Body := http.Body w |}
                analytics.XSearchId (effectiveSearchId uuid r))
             (http.Code respRecorder))
          (http.Body respRecorder),
        (started ++ [http.GoRecordResponse (effectiveSearchId uuid r)
                       (http.HeaderGet (http.ReqHeader r) analytics.XSearchId)
                       respRecorder r])%list).
Proof.
  intros Hacl Hteed Hh. unfold analytics.Recorder. rewrite Hacl.
  cbn [analytics.deref bind]. unfold teed in Hteed.
  apply andb_true_iff in Hteed as [Hsearch Hsome].
  rewrite Hsearch. apply negb_true_iff in Hsome. rewrite Hsome.
  cbn [negb orb]. rewrite Hh. reflexivity.
Qed.

(** C9: a search request with neither [X-Search-Query] nor [X-Search-Id]
    is handed to the downstream handler on the client's own writer:
    [Recorder] adds nothing to the response (no [X-Search-Id]) and starts
    no [recordResponse] task of its own. *)
Theorem Recorder_plain_search_passes_through (uuid : string) (h : http.HandlerFunc)
    (w : http.ResponseWriter) (r : http.Request) :
  context.Value (http.ctx r) context.aclCtxKey
    = Some (context.AnyACLPtr (Some acl.Search)) ->
  http.HeaderGet (http.ReqHeader r) analytics.XSearchQuery = EmptyString ->
  http.HeaderGet (http.ReqHeader r) analytics.XSearchId = EmptyString ->
  analytics.Recorder uuid h w r = h w r.
Proof.
  intros Hacl Hq Hid. apply (Recorder_direct uuid h w r acl.Search Hacl).
  unfold teed. rewrite Hq, Hid. reflexivity.
Qed.

Lemma Recorder_plain_search_passes_through_witness :
  analytics.Recorder "6ba7b811-9dad-11d1-80b4-00c04fd430c8" scenario.upstream
    http.freshWriter scenario.plain
  = scenario.upstream http.freshWriter scenario.plain.
Proof.
  exact (Recorder_plain_search_passes_through "6ba7b811-9dad-11d1-80b4-00c04fd430c8"
           scenario.upstream http.freshWriter scenario.plain eq_refl eq_refl eq_refl).
Defined.

(** C4: a search request with a non-empty [X-Search-Query], whose handler
    returns, is answered with an [X-Search-Id] header that went out with
    the status line; it is the client's own [X-Search-Id] when that is
    non-empty and the fresh UUID otherwise, and it is not empty. *)
Theorem Recorder_sets_search_id (uuid : string) (h : http.HandlerFunc)
    (w : http.ResponseWriter) (r : http.Request)
    (respRecorder : http.ResponseWriter) (started : list http.Goroutine) :
  context.Value (http.ctx r) context.aclCtxKey
    = Some (context.AnyACLPtr (Some acl.Search)) ->
  http.HeaderGet (http.ReqHeader r) analytics.XSearchQuery <> EmptyString ->
  uuid <> EmptyString ->
  http.wroteHeader w = false ->
  h httptest.NewRecorder r = Ok (respRecorder, started) ->
  exists w' tasks,
    analytics.Recorder uuid h w r = Ok (w', tasks)
    /\ http.wroteHeader w' = true
    /\ http.HeaderGet (http.sentHeader w') analytics.XSearchId =
         (if bool_decide (http.HeaderGet (http.ReqHeader r) analytics.XSearchId = EmptyString)
          then uuid
          else http.HeaderGet (http.ReqHeader r) analytics.XSearchId)
    /\ http.HeaderGet (http.sentHeader w') analytics.XSearchId <> EmptyString.
Proof.
  intros Hacl Hq Huuid Hw Hh.
  assert (Hteed : teed acl.Search r = true).
  { unfold teed. rewrite (bool_decide_eq_false_2 _ Hq). reflexivity. }
  rewrite (Recorder_teed uuid h w r acl.Search respRecorder started Hacl Hteed Hh).
  eexists _, _. split; [reflexivity|].
  assert (Hsent : forall w0 : http.ResponseWriter,
             http.wroteHeader w0 = false ->
             forall k v code buf,
               http.wroteHeader (http.Write (http.WriteHeader (http.SetHeader w0 k v) code) buf)
                 = true
               /\ http.HeaderGet
                    (http.sentHeader
                       (http.Write (http.WriteHeader (http.SetHeader w0 k v) code) buf)) k
                  = v).
  { intros w0 Hw0 k v code buf.
    unfold http.Write, http.WriteHeader, http.SetHeader, http.sentHeader. simpl.
    rewrite Hw0. simpl. split; [reflexivity|].
    unfold http.HeaderGet, http.HeaderSet. rewrite lookup_insert_eq. reflexivity. }
  match goal with
  | |- context [http.SetHeader ?w0 _ _] =>
      destruct (Hsent w0 Hw analytics.XSearchId (effectiveSearchId uuid r)
                  (http.Code respRecorder) (http.Body respRecorder)) as [Hwrote Hget]
  end.
  split; [exact Hwrote|]. rewrite Hget. unfold effectiveSearchId.
  split; [reflexivity|].
  case_bool_decide as Hid; [exact Huuid|exact Hid].
Qed.

Lemma Recorder_sets_search_id_witness :
  exists w' tasks,
    analytics.Recorder "6ba7b811-9dad-11d1-80b4-00c04fd430c8" scenario.upstream
      http.freshWriter scenario.shoes = Ok (w', tasks)
    /\ http.wroteHeader w' = true
    /\ http.HeaderGet (http.sentHeader w') analytics.XSearchId
       = "6ba7b811-9dad-11d1-80b4-00c04fd430c8"
    /\ http.HeaderGet (http.sentHeader w') analytics.XSearchId <> EmptyString.
Proof.
  exact (Recorder_sets_search_id "6ba7b811-9dad-11d1-80b4-00c04fd430c8" scenario.upstream
           http.freshWriter scenario.shoes _ _ eq_refl
           ltac:(vm_compute; discriminate) ltac:(discriminate) eq_refl eq_refl).
Defined.

(** C5: whatever status and body the downstream handler produces, on the
    client's writer when the request is served directly or on the response
    recorder when it is teed, the client's writer ends with that status
    and those body bytes. *)
Theorem Recorder_relays_status_and_body (uuid : string) (h : http.HandlerFunc)
    (w : http.ResponseWriter) (r : http.Request) (reqACL : acl.ACL)
    (produced : http.ResponseWriter) (started : list http.Goroutine) :
  context.Value (http.ctx r) context.aclCtxKey
    = Some (context.AnyACLPtr (Some reqACL)) ->
  http.wroteHeader w = false ->
  http.Body w = [] ->
  (if teed reqACL r then h httptest.NewRecorder r else h w r) = Ok (produced, started) ->
  exists w' tasks,
    analytics.Recorder uuid h w r = Ok (w', tasks)
    /\ http.Code w' = http.Code produced
    /\ http.Body w' = http.Body produced.
Proof.
  intros Hacl Hw Hbody Hh.
  destruct (teed reqACL r) eqn:Hteed.
  - rewrite (Recorder_teed uuid h w r reqACL produced started Hacl Hteed Hh).
    eexists _, _. split; [reflexivity|].
    unfold http.Write, http.WriteHeader, http.SetHeader. simpl.
    rewrite Hw. simpl. rewrite Hbody. split; reflexivity.
  - rewrite (Recorder_direct uuid h w r reqACL Hacl Hteed), Hh.
    eexists _, _. split; [reflexivity|]. split; reflexivity.
Qed.

Lemma Recorder_relays_status_and_body_witness :
  exists w' tasks,
    analytics.Recorder "6ba7b811-9dad-11d1-80b4-00c04fd430c8" scenario.missing
      http.freshWriter scenario.shoes = Ok (w', tasks)
    /\ http.Code w' = 404
    /\ http.Body w' = scenario.body "no such index".
Proof.
  exact (Recorder_relays_status_and_body "6ba7b811-9dad-11d1-80b4-00c04fd430c8"
           scenario.missing http.freshWriter scenario.shoes acl.Search _ _
           eq_refl eq_refl eq_refl eq_refl).
Defined.


(** ** The analytics recorder *)

Section recorder.
Context `{analytics.External}.

(** [recordResponse] as the composition of its steps. *)
Lemma recordResponse_steps (now docId searchId : string)
    (respRecorder : http.ResponseWriter) (r : http.Request) :
  analytics.recordResponse now docId searchId respRecorder r =
    match analytics.parseResponse (http.RequestURI r) (renamed (http.Body respRecorder)) with
    | None => Ok analytics.Dropped
    | Some esResponse =>
        let took : gmap string analytics.value :=
          <["took" := analytics.VFloat (analytics.Took esResponse)]> ∅ in
        if bool_decide (searchId = EmptyString) then
          let! indices :=
            analytics.asStrings (context.Value (http.ctx r) context.indexCtxKey) in
          Ok (analytics.Indexed docId
                (requestFields r (originFields now r esResponse indices took)))
        else Ok (analytics.Indexed docId (requestFields r took))
    end.
Proof.
  unfold analytics.recordResponse. fold (renamed (http.Body respRecorder)).
  destruct (analytics.parseResponse _ _) as [es|]; [|reflexivity].
  cbv zeta. destruct (bool_decide (searchId = EmptyString)); [|reflexivity].
  destruct (analytics.asStrings _); reflexivity.
Qed.

(** The request's fields are stored under seven keys of their own. *)
Lemma requestFields_lookup (r : http.Request) (record : gmap string analytics.value)
    (k : string) :
  k <> "ip" -> k <> "location" -> k <> "country" -> k <> "click" ->
  k <> "click_position" -> k <> "conversion" -> k <> "custom_events" ->
  requestFields r record !! k = record !! k.
Proof.
  intros Hip Hloc Hcountry Hclick Hpos Hconv Hcustom.
  unfold requestFields, addCustomEvents, addConversion, addClickPosition, addClick,
    addCountry, addLocation, addIP.
  repeat first [case_bool_decide | case_match];
    rewrite ?lookup_insert_ne by congruence; reflexivity.
Qed.

Lemma addFilters_lookup (r : http.Request) (record : gmap string analytics.value)
    (k : string) :
  k <> "search_filters" -> addFilters r record !! k = record !! k.
Proof.
  intros Hk. unfold addFilters. case_bool_decide; [|reflexivity].
  apply lookup_insert_ne. congruence.
Qed.

Ltac origin_key :=
  rewrite requestFields_lookup by discriminate;
  unfold originFields;
  rewrite ?addFilters_lookup by discriminate;
  rewrite ?lookup_insert_ne by discriminate;
  first [apply lookup_insert_eq | apply lookup_empty | reflexivity].

(** What an indexed record holds under took and under the origin keys. *)
Lemma recordResponse_Indexed (now docId searchId : string)
    (respRecorder : http.ResponseWriter) (r : http.Request) (d : string)
    (record : gmap string analytics.value) :
  analytics.recordResponse now docId searchId respRecorder r
    = Ok (analytics.Indexed d record) ->
  exists esResponse,
    analytics.parseResponse (http.RequestURI r) (renamed (http.Body respRecorder))
      = Some esResponse
    /\ d = docId
    /\ record !! "took" = Some (analytics.VFloat (analytics.Took esResponse))
    /\ if bool_decide (searchId = EmptyString) then
         exists indices,
           context.Value (http.ctx r) context.indexCtxKey
             = Some (context.AnyStrings indices)
           /\ record !! "indices" = Some (analytics.VStrings indices)
           /\ record !! "search_query"
              = Some (analytics.VString
                        (http.HeaderGet (http.ReqHeader r) analytics.XSearchQuery))
           /\ record !! "hits_in_response"
              = Some (analytics.VHits
                        (analytics.recordHits (take 10 (analytics.Hits_Hits esResponse))))
           /\ record !! "total_hits"
              = Some (analytics.VInt (analytics.Hits_Total esResponse))
           /\ record !! "datestamp" = Some (analytics.VString now)
           /\ record !! "search_filters"
              = (if bool_decide
                      (0 < size (analytics.parse
                                   (http.HeaderGet (http.ReqHeader r)
                                      analytics.XSearchFilters)))%nat
                 then Some (analytics.VMap
                              (analytics.parse
                                 (http.HeaderGet (http.ReqHeader r)
                                    analytics.XSearchFilters)))
                 else None)
       else
         record !! "indices" = None /\ record !! "search_query" = None
         /\ record !! "hits_in_response" = None /\ record !! "total_hits" = None
         /\ record !! "datestamp" = None /\ record !! "search_filters" = None.
Proof.
  rewrite recordResponse_steps.
  destruct (analytics.parseResponse _ _) as [es|]; [|discriminate].
  cbv zeta. intros Hrec. exists es. split; [reflexivity|].
  case_bool_decide as Hid.
  - destruct (context.Value (http.ctx r) context.indexCtxKey) as [[| | |l|]|];
      try discriminate Hrec.
    cbn [analytics.asStrings bind] in Hrec. injection Hrec as <- <-.
    split; [reflexivity|]. split; [origin_key|].
    exists l. split; [reflexivity|].
    repeat (split; [origin_key|]).
    rewrite requestFields_lookup by discriminate.
    unfold originFields, addFilters. case_bool_decide.
    + apply lookup_insert_eq.
    + rewrite !lookup_insert_ne by discriminate. apply lookup_empty.
  - injection Hrec as <- <-.
    split; [reflexivity|]. repeat split; origin_key.
Qed.


End recorder.

Lemma prefix_append (s t : string) : String.prefix s (s +:+ t) = true.
Proof.
  induction s as [|a s IH]; simpl.
  - destruct t; reflexivity.
  - destruct (Ascii.ascii_dec a a) as [_|Hne]; [exact IH|]. destruct Hne. reflexivity.
Qed.

Lemma Contains_unfold (s substr : string) :
  strings.Contains s substr =
    if String.prefix substr s then true
    else match s with
         | EmptyString => false
         | String _ rest => strings.Contains rest substr
         end.
Proof. destruct s; reflexivity. Qed.

(** [strings.Contains] finds the substring wherever it stands. *)
Lemma Contains_infix (before substr after : string) :
  strings.Contains (before +:+ (substr +:+ after)) substr = true.
Proof.
  induction before as [|a before IH].
  - change (EmptyString +:+ (substr +:+ after)) with (substr +:+ after).
    rewrite Contains_unfold, prefix_append. reflexivity.
  - rewrite Contains_unfold.
    destruct (String.prefix substr (String a before +:+ (substr +:+ after)));
      [reflexivity|exact IH].
Qed.

Section recorder_properties.
Context `{analytics.External}.

(** C7: a record that [recordResponse] hands to the index holds indices,
    search_query, hits_in_response, total_hits and datestamp exactly when
    the search id it was called with (the request's [X-Search-Id]) is
    empty, and holds search_filters exactly when, in addition, the parsed
    [X-Search-Filters] are not empty; for a non-empty search id none of
    the six keys is written. *)
Theorem origin_fields_iff_no_search_id (now docId searchId : string)
    (respRecorder : http.ResponseWriter) (r : http.Request) (d : string)
    (record : gmap string analytics.value) :
  analytics.recordResponse now docId searchId respRecorder r
    = Ok (analytics.Indexed d record) ->
  (is_Some (record !! "indices") <-> searchId = EmptyString)
  /\ (is_Some (record !! "search_query") <-> searchId = EmptyString)
  /\ (is_Some (record !! "hits_in_response") <-> searchId = EmptyString)
  /\ (is_Some (record !! "total_hits") <-> searchId = EmptyString)
  /\ (is_Some (record !! "datestamp") <-> searchId = EmptyString)
  /\ (is_Some (record !! "search_filters") <->
      searchId = EmptyString
      /\ (0 < size (analytics.parse
                      (http.HeaderGet (http.ReqHeader r) analytics.XSearchFilters)))%nat).
Proof.
  intros Hrec.
  destruct (recordResponse_Indexed now docId searchId respRecorder r d record Hrec)
    as (es & _ & _ & _ & Hkeys).
  case_bool_decide as Hid.
  - destruct Hkeys as (l & _ & Hi & Hq & Hh & Ht & Hd & Hf).
    rewrite Hi, Hq, Hh, Ht, Hd, Hf.
    repeat (split; [split; [intros _; exact Hid | intros _; eexists; reflexivity]|]).
    case_bool_decide as Hsize.
    + split; [intros _; split; [exact Hid|exact Hsize] | intros _; eexists; reflexivity].
    + split; [intros [x Hx]; discriminate Hx | intros [_ Hs]; contradiction].
  - destruct Hkeys as (Hi & Hq & Hh & Ht & Hd & Hf).
    rewrite Hi, Hq, Hh, Ht, Hd, Hf.
    repeat (split; [split; [intros [x Hx]; discriminate Hx | intros Hs; contradiction]|]).
    split; [intros [x Hx]; discriminate Hx | intros [Hs _]; contradiction].
Qed.


End recorder_properties.

Lemma origin_fields_iff_no_search_id_witness :
  analytics.recordResponse (H := scenario.external) "2019/07/01 10:00:00"
    "6ba7b811-9dad-11d1-80b4-00c04fd430c8" EmptyString scenario.recorded scenario.shoes
  = Ok (analytics.Indexed "6ba7b811-9dad-11d1-80b4-00c04fd430c8" scenario.shoesRecord)
  /\ (is_Some (scenario.shoesRecord !! "indices") <-> EmptyString = EmptyString)
  /\ (is_Some (scenario.shoesRecord !! "search_query") <-> EmptyString = EmptyString)
  /\ (is_Some (scenario.shoesRecord !! "hits_in_response") <-> EmptyString = EmptyString)
  /\ (is_Some (scenario.shoesRecord !! "total_hits") <-> EmptyString = EmptyString)
  /\ (is_Some (scenario.shoesRecord !! "datestamp") <-> EmptyString = EmptyString)
  /\ (is_Some (scenario.shoesRecord !! "search_filters") <->
      EmptyString = EmptyString
      /\ (0 < size (analytics.parse (External := scenario.external)
                      (http.HeaderGet (http.ReqHeader scenario.shoes)
                         analytics.XSearchFilters)))%nat).
Proof.
  assert (Hrun :
    analytics.recordResponse (H := scenario.external) "2019/07/01 10:00:00"
      "6ba7b811-9dad-11d1-80b4-00c04fd430c8" EmptyString scenario.recorded scenario.shoes
    = Ok (analytics.Indexed "6ba7b811-9dad-11d1-80b4-00c04fd430c8" scenario.shoesRecord))
    by (vm_compute; reflexivity).
  exact (conj Hrun
           (origin_fields_iff_no_search_id (H := scenario.external) _ _ _ _ _ _ _ Hrun)).
Defined.


(** C8 on the code: a search whose context carries no indices is answered
    with the handler's 200, and the [recordResponse] task that [Recorder]
    started for it panics on the unchecked assertion of line 146; a context
    whose user is of another type makes [validateOp] panic on its unchecked
    assertion.  Neither ends in an internal-error response. *)
Theorem unchecked_context_values_panic :
  (exists w',
     analytics.Recorder "6ba7b811-9dad-11d1-80b4-00c04fd430c8" scenario.upstream
       http.freshWriter scenario.shoesWithoutIndices
     = Ok (w', [http.GoRecordResponse "6ba7b811-9dad-11d1-80b4-00c04fd430c8" EmptyString
                  scenario.recorded scenario.shoesWithoutIndices])
     /\ http.Code w' = 200
     /\ analytics.run (H := scenario.external) "2019/07/01 10:00:00"
          (http.GoRecordResponse "6ba7b811-9dad-11d1-80b4-00c04fd430c8" EmptyString
             scenario.recorded scenario.shoesWithoutIndices)
        = Panic "interface conversion: interface {} is nil, not []string")
  /\ analytics.validateOp scenario.upstream http.freshWriter scenario.mistyped
     = Panic "interface conversion: interface {} is not *user.User".
Proof.
  split; [|reflexivity].
  eexists. split; [vm_compute; reflexivity|]. split; vm_compute; reflexivity.
Qed.

(** ** The principal patch handlers *)

Section patch_properties.
Context `{users.Backend}.

(** C6: a patch that sets categories and no acls is checked with
    [ValidateCategories] against the stored principal before
    [es.patchUser] is reached.  When the check fails, both handlers answer
    400 with the check's own message, the store is left as it was, and
    nothing depends on what [es.patchUser] would do. *)
Theorem categories_patch_validated_first (w : http.ResponseWriter) (r : http.Request)
    (st : users.store) (body : list Byte.byte) (userBody : user.User)
    (patch : gmap string users.patchValue) (categories : list category.Category)
    (reqUser : user.User) (err : users.error) :
  http.ReqBody r = Some body ->
  users.json_Unmarshal_User body = Some userBody ->
  users.GetPatch userBody = users.Val patch ->
  patch !! "acls" = None ->
  patch !! "categories" = Some (users.PCategories categories) ->
  users.ValidateCategories reqUser categories = Some err ->
  http.wroteHeader w = false ->
  (users.es_getUser st (users.basicAuthUsername r) = users.Val reqUser ->
   users.patchUser w r st = (util.WriteBackError w err http.StatusBadRequest, st)
   /\ http.Code (users.patchUser w r st).1 = 400)
  /\ (forall username,
        http.Vars r !! "username" = Some username ->
        users.es_getUser st username = users.Val reqUser ->
        users.patchUserWithUsername w r st
          = (util.WriteBackError w err http.StatusBadRequest, st)
        /\ http.Code (users.patchUserWithUsername w r st).1 = 400).
Proof.
  intros Hbody Hjson Hpatch Hacls Hcats Hinvalid Hw. split.
  - intros Hget.
    assert (Hrun : users.patchUser w r st
                   = (util.WriteBackError w err http.StatusBadRequest, st)).
    { unfold users.patchUser.
      rewrite Hbody, Hjson, Hpatch, Hacls, Hcats, Hget, Hinvalid. reflexivity. }
    split; [exact Hrun|]. rewrite Hrun. apply Code_WriteBackError. exact Hw.
  - intros username Hvars Hget.
    assert (Hrun : users.patchUserWithUsername w r st
                   = (util.WriteBackError w err http.StatusBadRequest, st)).
    { unfold users.patchUserWithUsername.
      rewrite Hvars, Hbody, Hjson, Hpatch, Hacls, Hcats, Hget, Hinvalid. reflexivity. }
    split; [exact Hrun|]. rewrite Hrun. apply Code_WriteBackError. exact Hw.
Qed.

End patch_properties.

Lemma categories_patch_validated_first_witness :
  (users.patchUser (H := scenario.backend) http.freshWriter scenario.davePatch
     scenario.principals
   = (util.WriteBackError http.freshWriter
        "user does not have the acl for category 'user'" 400, scenario.principals)
   /\ http.Code (users.patchUser (H := scenario.backend) http.freshWriter
                   scenario.davePatch scenario.principals).1 = 400)
  /\ (users.patchUserWithUsername (H := scenario.backend) http.freshWriter
        scenario.davePatchByName scenario.principals
      = (util.WriteBackError http.freshWriter
           "user does not have the acl for category 'user'" 400, scenario.principals)
      /\ http.Code (users.patchUserWithUsername (H := scenario.backend) http.freshWriter
                      scenario.davePatchByName scenario.principals).1 = 400).
Proof.
  split.
  - exact (proj1 (categories_patch_validated_first (H := scenario.backend)
                    http.freshWriter scenario.davePatch scenario.principals
                    _ _ _ ["user"] scenario.dave _
                    eq_refl eq_refl eq_refl eq_refl eq_refl eq_refl eq_refl) eq_refl).
  - exact (proj2 (categories_patch_validated_first (H := scenario.backend)
                    http.freshWriter scenario.davePatchByName scenario.principals
                    _ _ _ ["user"] scenario.dave _
                    eq_refl eq_refl eq_refl eq_refl eq_refl eq_refl eq_refl)
             "dave" eq_refl eq_refl).
Defined.

(** * Further properties of the analytics middleware *)

(** X1: when the context carries no acl, or a value that is not a pointer
    to an [acl.ACL], [Recorder] answers 500 with the internal-error message
    on the client's writer; the downstream handler is not run and no task is
    started, whatever the search headers are. *)
Theorem Recorder_without_acl_is_500 (uuid : string) (h : http.HandlerFunc)
    (w : http.ResponseWriter) (r : http.Request) :
  (forall p, context.Value (http.ctx r) context.aclCtxKey <> Some (context.AnyACLPtr p)) ->
  http.wroteHeader w = false ->
  analytics.Recorder uuid h w r
    = Ok (util.WriteBackMessage w "Internal server error" 500, [])
  /\ statusOf (analytics.Recorder uuid h w r) = 500.
Proof.
  intros Hno Hw.
  assert (Hrun : analytics.Recorder uuid h w r
                 = Ok (util.WriteBackMessage w "Internal server error" 500, [])).
  { unfold analytics.Recorder.
    destruct (context.Value (http.ctx r) context.aclCtxKey) as [[p| | | |]|] eqn:Hv;
      try reflexivity.
    destruct (Hno p). reflexivity. }
  split; [exact Hrun|]. rewrite Hrun. unfold statusOf.
  apply Code_WriteBackMessage. exact Hw.
Qed.

Lemma Recorder_without_acl_is_500_witness :
  analytics.Recorder "6ba7b811-9dad-11d1-80b4-00c04fd430c8" scenario.upstream
    http.freshWriter
    (scenario.request "GET" "/myidx/_search" [("X-Search-Query", ["shoes"])]
       (context.WithValue context.Background context.aclCtxKey (context.AnyString "search")))
  = Ok (util.WriteBackMessage http.freshWriter "Internal server error" 500, [])
  /\ statusOf
       (analytics.Recorder "6ba7b811-9dad-11d1-80b4-00c04fd430c8" scenario.upstream
          http.freshWriter
          (scenario.request "GET" "/myidx/_search" [("X-Search-Query", ["shoes"])]
             (context.WithValue context.Background context.aclCtxKey
                (context.AnyString "search"))))
     = 500.
Proof.
  exact (Recorder_without_acl_is_500 "6ba7b811-9dad-11d1-80b4-00c04fd430c8"
           scenario.upstream http.freshWriter
           (scenario.request "GET" "/myidx/_search" [("X-Search-Query", ["shoes"])]
              (context.WithValue context.Background context.aclCtxKey
                 (context.AnyString "search")))
           ltac:(intros p Hp; discriminate Hp) eq_refl).
Defined.

(** X2: a request of any category other than search is handed to the
    downstream handler on the client's own writer, even when it carries
    [X-Search-Query] or [X-Search-Id]. *)
Theorem Recorder_other_category_passes_through (uuid : string) (h : http.HandlerFunc)
    (w : http.ResponseWriter) (r : http.Request) (reqACL : acl.ACL) :
  context.Value (http.ctx r) context.aclCtxKey
    = Some (context.AnyACLPtr (Some reqACL)) ->
  reqACL <> acl.Search ->
  analytics.Recorder uuid h w r = h w r.
Proof.
  intros Hacl Hother. apply (Recorder_direct uuid h w r reqACL Hacl).
  unfold teed. rewrite (bool_decide_eq_false_2 _ Hother). reflexivity.
Qed.

Lemma Recorder_other_category_passes_through_witness :
  analytics.Recorder "6ba7b811-9dad-11d1-80b4-00c04fd430c8" scenario.upstream
    http.freshWriter
    (scenario.request "GET" "/_analytics/overview" [("X-Search-Query", ["shoes"])]
       (context.WithValue context.Background context.aclCtxKey
          (context.AnyACLPtr (Some acl.Analytics))))
  = scenario.upstream http.freshWriter
      (scenario.request "GET" "/_analytics/overview" [("X-Search-Query", ["shoes"])]
         (context.WithValue context.Background context.aclCtxKey
            (context.AnyACLPtr (Some acl.Analytics)))).
Proof.
  exact (Recorder_other_category_passes_through "6ba7b811-9dad-11d1-80b4-00c04fd430c8"
           scenario.upstream http.freshWriter
           (scenario.request "GET" "/_analytics/overview" [("X-Search-Query", ["shoes"])]
              (context.WithValue context.Background context.aclCtxKey
                 (context.AnyACLPtr (Some acl.Analytics))))
           acl.Analytics eq_refl ltac:(discriminate)).
Defined.

(** What the client's writer holds after a teed request. *)
Lemma teed_writer (w : http.ResponseWriter) (respRecorder : http.ResponseWriter)
    (docId : string) :
  http.wroteHeader w = false ->
  http.sentHeader
    (http.Write
       (http.WriteHeader
          (http.SetHeader
             {| http.HeaderMap := http.HeaderMap respRecorder ∪ http.HeaderMap w;
                http.snapHeader := http.snapHeader w; http.Code := http.Code w;
                http.wroteHeader := http.wroteHeader w; http.Body := http.Body w |}
             analytics.XSearchId docId)
          (http.Code respRecorder))
       (http.Body respRecorder))
  = <[analytics.XSearchId := [docId]]> (http.HeaderMap respRecorder ∪ http.HeaderMap w).
Proof.
  intros Hw. unfold http.Write, http.WriteHeader, http.SetHeader, http.sentHeader.
  simpl. rewrite Hw. reflexivity.
Qed.

(** X3: on a teed request every header other than [X-Search-Id] reaches the
    client as the downstream handler left it on the recorder, and a header
    the handler did not set keeps the value the client's writer already
    had. *)
Theorem Recorder_relays_headers (uuid : string) (h : http.HandlerFunc)
    (w : http.ResponseWriter) (r : http.Request)
    (respRecorder : http.ResponseWriter) (started : list http.Goroutine) (k : string) :
  context.Value (http.ctx r) context.aclCtxKey
    = Some (context.AnyACLPtr (Some acl.Search)) ->
  teed acl.Search r = true ->
  http.wroteHeader w = false ->
  h httptest.NewRecorder r = Ok (respRecorder, started) ->
  k <> analytics.XSearchId ->
  exists w' tasks,
    analytics.Recorder uuid h w r = Ok (w', tasks)
    /\ http.sentHeader w' !! k =
         match http.HeaderMap respRecorder !! k with
         | Some v => Some v
         | None => http.HeaderMap w !! k
         end.
Proof.
  intros Hacl Hteed Hw Hh Hk.
  rewrite (Recorder_teed uuid h w r acl.Search respRecorder started Hacl Hteed Hh).
  eexists _, _. split; [reflexivity|].
  rewrite (teed_writer w respRecorder _ Hw).
  rewrite lookup_insert_ne by congruence.
  rewrite lookup_union.
  destruct (http.HeaderMap respRecorder !! k), (http.HeaderMap w !! k); reflexivity.
Qed.

Lemma Recorder_relays_headers_witness :
  exists w' tasks,
    analytics.Recorder "6ba7b811-9dad-11d1-80b4-00c04fd430c8" scenario.upstream
      (http.SetHeader http.freshWriter "Server" "arc") scenario.shoes = Ok (w', tasks)
    /\ http.sentHeader w' !! "Content-Type" = Some ["application/json"].
Proof.
  exact (Recorder_relays_headers "6ba7b811-9dad-11d1-80b4-00c04fd430c8" scenario.upstream
           (http.SetHeader http.freshWriter "Server" "arc") scenario.shoes _ _
           "Content-Type" eq_refl eq_refl eq_refl eq_refl ltac:(discriminate)).
Defined.


(** X4: on a teed request whose handler returns, the one task [Recorder]
    adds, when it indexes a record, indexes it under the very id the
    client received in the [X-Search-Id] response header. *)
Theorem Recorder_indexes_under_echoed_id `{analytics.External} (uuid : string)
    (h : http.HandlerFunc) (w : http.ResponseWriter) (r : http.Request)
    (respRecorder : http.ResponseWriter) (started : list http.Goroutine) :
  context.Value (http.ctx r) context.aclCtxKey
    = Some (context.AnyACLPtr (Some acl.Search)) ->
  teed acl.Search r = true ->
  http.wroteHeader w = false ->
  h httptest.NewRecorder r = Ok (respRecorder, started) ->
  exists w' task,
    analytics.Recorder uuid h w r = Ok (w', (started ++ [task])%list)
    /\ forall now d record,
         analytics.run now task = Ok (analytics.Indexed d record) ->
         d = http.HeaderGet (http.sentHeader w') analytics.XSearchId.
Proof.
  intros Hacl Hteed Hw Hh.
  rewrite (Recorder_teed uuid h w r acl.Search respRecorder started Hacl Hteed Hh).
  eexists _, _. split; [reflexivity|].
  intros now d record Hrun. cbn [analytics.run] in Hrun.
  destruct (recordResponse_Indexed _ _ _ _ _ _ _ Hrun) as (_ & _ & -> & _).
  rewrite (teed_writer w respRecorder _ Hw).
  unfold http.HeaderGet. rewrite lookup_insert_eq. reflexivity.
Qed.

Lemma Recorder_indexes_under_echoed_id_witness :
  exists w' task,
    analytics.Recorder "6ba7b811-9dad-11d1-80b4-00c04fd430c8" scenario.upstream
      http.freshWriter scenario.click = Ok (w', ([] ++ [task])%list)
    /\ forall now d record,
         analytics.run (H := scenario.external) now task
           = Ok (analytics.Indexed d record) ->
         d = http.HeaderGet (http.sentHeader w') analytics.XSearchId.
Proof.
  exact (Recorder_indexes_under_echoed_id (H := scenario.external)
           "6ba7b811-9dad-11d1-80b4-00c04fd430c8" scenario.upstream http.freshWriter
           scenario.click _ _ eq_refl eq_refl eq_refl eq_refl).
Defined.

(** * Further properties of the classifier and the authorizer *)

(** X5: behind [classifier], [validateOp] never misses the operation: for
    a request whose context holds a user, the pair lets the request through
    exactly when the user's ops contain the operation of the request's
    method, and the handler then sees the classified request. *)
Theorem classifier_then_validateOp (h : http.HandlerFunc) (w : http.ResponseWriter)
    (r : http.Request) (u : user.User) :
  context.Value (http.ctx r) context.userCtxKey = Some (context.AnyUserPtr (Some u)) ->
  analytics.classifier (analytics.validateOp h) w r =
    if op.Contains (user.Ops u) (analytics.classifierOperation (http.Method r))
    then h w (classified r)
    else Ok (util.WriteBackMessage w
               (analytics.validateOpMsg u (analytics.classifierOperation (http.Method r)))
               http.StatusUnauthorized, []).
Proof.
  intros Hu. unfold analytics.classifier. fold (classified r).
  assert (Hu' : context.Value (http.ctx (classified r)) context.userCtxKey
                = Some (context.AnyUserPtr (Some u))) by exact Hu.
  assert (Ho : context.Value (http.ctx (classified r)) context.opCtxKey
               = Some (context.AnyOpPtr
                         (Some (analytics.classifierOperation (http.Method r)))))
    by reflexivity.
  exact (proj1 (validate_op_acl_shape h w (classified r) u _ Hu' Ho)).
Qed.

Lemma classifier_then_validateOp_witness :
  analytics.classifier (analytics.validateOp scenario.upstream) http.freshWriter
    (scenario.request "DELETE" "/_analytics/overview" []
       (context.WithValue context.Background context.userCtxKey
          (context.AnyUserPtr (Some scenario.carol))))
  = Ok (util.WriteBackMessage http.freshWriter
          "user with user_id=carol does not have 'delete' op access" 401, []).
Proof.
  exact (classifier_then_validateOp scenario.upstream http.freshWriter
           (scenario.request "DELETE" "/_analytics/overview" []
              (context.WithValue context.Background context.userCtxKey
                 (context.AnyUserPtr (Some scenario.carol))))
           scenario.carol eq_refl).
Defined.

(** X6: [classifier] marks every request as analytics, shadowing any acl
    published before it, so a [Recorder] placed behind it never tees: the
    pair behaves as [classifier] alone. *)
Theorem classifier_then_Recorder (uuid : string) (h : http.HandlerFunc)
    (w : http.ResponseWriter) (r : http.Request) :
  analytics.classifier (analytics.Recorder uuid h) w r = analytics.classifier h w r.
Proof.
  unfold analytics.classifier. fold (classified r).
  apply (Recorder_direct uuid h w (classified r) acl.Analytics); reflexivity.
Qed.

(** X7: the two authorizer middlewares in a row let a request through
    exactly when both the operation is among the user's ops and Analytics
    is among the user's acls, in either order; the refusal is the one of
    the outer middleware when both fail. *)
Theorem authorizer_chain (h : http.HandlerFunc) (w : http.ResponseWriter)
    (r : http.Request) (u : user.User) (operation : op.Operation) :
  context.Value (http.ctx r) context.userCtxKey = Some (context.AnyUserPtr (Some u)) ->
  context.Value (http.ctx r) context.opCtxKey = Some (context.AnyOpPtr (Some operation)) ->
  analytics.validateACL (analytics.validateOp h) w r =
    (if acl.Contains (user.ACLs u) acl.Analytics then
       if op.Contains (user.Ops u) operation then h w r
       else Ok (util.WriteBackMessage w (analytics.validateOpMsg u operation)
                  http.StatusUnauthorized, [])
     else Ok (util.WriteBackMessage w (analytics.validateACLMsg u)
                http.StatusUnauthorized, []))
  /\ analytics.validateOp (analytics.validateACL h) w r =
    (if op.Contains (user.Ops u) operation then
       if acl.Contains (user.ACLs u) acl.Analytics then h w r
       else Ok (util.WriteBackMessage w (analytics.validateACLMsg u)
                  http.StatusUnauthorized, [])
     else Ok (util.WriteBackMessage w (analytics.validateOpMsg u operation)
                http.StatusUnauthorized, [])).
Proof.
  intros Hu Ho. split.
  - rewrite (proj2 (validate_op_acl_shape (analytics.validateOp h) w r u operation Hu Ho)).
    rewrite (proj1 (validate_op_acl_shape h w r u operation Hu Ho)). reflexivity.
  - rewrite (proj1 (validate_op_acl_shape (analytics.validateACL h) w r u operation Hu Ho)).
    rewrite (proj2 (validate_op_acl_shape h w r u operation Hu Ho)). reflexivity.
Qed.

Lemma authorizer_chain_witness :
  analytics.validateACL (analytics.validateOp scenario.upstream) http.freshWriter
    scenario.aliceGet
  = Ok (util.WriteBackMessage http.freshWriter (analytics.validateACLMsg scenario.alice)
          401, [])
  /\ analytics.validateOp (analytics.validateACL scenario.upstream) http.freshWriter
       scenario.aliceGet
     = Ok (util.WriteBackMessage http.freshWriter
             (analytics.validateOpMsg scenario.alice op.Read) 401, []).
Proof.
  exact (authorizer_chain scenario.upstream http.freshWriter scenario.aliceGet
           scenario.alice op.Read eq_refl eq_refl).
Defined.

(** X8: without a user in the context both authorizer middlewares answer
    500 with the internal-error message, and so does [validateOp] when the
    user is there but the operation is not; the downstream handler is not
    run. *)
Theorem validate_without_context_is_500 (h : http.HandlerFunc) (w : http.ResponseWriter)
    (r : http.Request) :
  http.wroteHeader w = false ->
  (context.Value (http.ctx r) context.userCtxKey = None ->
   analytics.validateOp h w r
     = Ok (util.WriteBackMessage w "Internal server error" 500, [])
   /\ analytics.validateACL h w r
      = Ok (util.WriteBackMessage w "Internal server error" 500, [])
   /\ statusOf (analytics.validateOp h w r) = 500
   /\ statusOf (analytics.validateACL h w r) = 500)
  /\ (forall u,
        context.Value (http.ctx r) context.userCtxKey = Some (context.AnyUserPtr u) ->
        context.Value (http.ctx r) context.opCtxKey = None ->
        analytics.validateOp h w r
          = Ok (util.WriteBackMessage w "Internal server error" 500, [])
        /\ statusOf (analytics.validateOp h w r) = 500).
Proof.
  intros Hw. split.
  - intros Hu. unfold analytics.validateOp, analytics.validateACL. rewrite Hu.
    unfold analytics.internalServerError, statusOf.
    repeat split; try reflexivity; apply Code_WriteBackMessage; exact Hw.
  - intros u Hu Ho. unfold analytics.validateOp. rewrite Hu, Ho.
    cbn [analytics.asUserPtr bind]. unfold analytics.internalServerError, statusOf.
    split; [reflexivity|]. apply Code_WriteBackMessage. exact Hw.
Qed.

Lemma validate_without_context_is_500_witness :
  (analytics.validateOp scenario.upstream http.freshWriter scenario.plain
     = Ok (util.WriteBackMessage http.freshWriter "Internal server error" 500, [])
   /\ analytics.validateACL scenario.upstream http.freshWriter scenario.plain
      = Ok (util.WriteBackMessage http.freshWriter "Internal server error" 500, [])
   /\ statusOf (analytics.validateOp scenario.upstream http.freshWriter scenario.plain)
      = 500
   /\ statusOf (analytics.validateACL scenario.upstream http.freshWriter scenario.plain)
      = 500)
  /\ (analytics.validateOp scenario.upstream http.freshWriter
        (scenario.request "GET" "/_analytics/overview" []
           (context.WithValue context.Background context.userCtxKey
              (context.AnyUserPtr (Some scenario.carol))))
      = Ok (util.WriteBackMessage http.freshWriter "Internal server error" 500, [])
      /\ statusOf
           (analytics.validateOp scenario.upstream http.freshWriter
              (scenario.request "GET" "/_analytics/overview" []
                 (context.WithValue context.Background context.userCtxKey
                    (context.AnyUserPtr (Some scenario.carol)))))
         = 500).
Proof.
  split.
  - exact (proj1 (validate_without_context_is_500 scenario.upstream http.freshWriter
                    scenario.plain eq_refl) eq_refl).
  - exact (proj2 (validate_without_context_is_500 scenario.upstream http.freshWriter
                    (scenario.request "GET" "/_analytics/overview" []
                       (context.WithValue context.Background context.userCtxKey
                          (context.AnyUserPtr (Some scenario.carol))))
                    eq_refl)
             (Some scenario.carol) eq_refl eq_refl).
Defined.


(** * Further properties of the analytics recorder *)

Section recorder_outcomes.
Context `{analytics.External}.

(** X9: [recordResponse] returns without indexing exactly when the
    response body cannot be decoded; this happens before the context is
    consulted, so it does so even when the indices are missing. *)
Theorem recordResponse_drops_iff (now docId searchId : string)
    (respRecorder : http.ResponseWriter) (r : http.Request) :
  analytics.recordResponse now docId searchId respRecorder r = Ok analytics.Dropped
  <-> analytics.parseResponse (http.RequestURI r) (renamed (http.Body respRecorder)) = None.
Proof.
  rewrite recordResponse_steps.
  destruct (analytics.parseResponse _ _) as [es|]; [|split; reflexivity].
  cbv zeta. split; [|discriminate].
  destruct (bool_decide (searchId = EmptyString)); [|discriminate].
  destruct (analytics.asStrings _); discriminate.
Qed.

(** X10: [recordResponse] panics exactly when the response decodes, the
    search id is empty and the context does not hold a [[]string] under the
    indices key; a follow-up event, which has a search id, never panics. *)
Theorem recordResponse_panics_iff (now docId searchId : string)
    (respRecorder : http.ResponseWriter) (r : http.Request) :
  (exists reason,
     analytics.recordResponse now docId searchId respRecorder r = Panic reason)
  <-> (searchId = EmptyString
       /\ is_Some (analytics.parseResponse (http.RequestURI r)
                     (renamed (http.Body respRecorder)))
       /\ forall indices,
            context.Value (http.ctx r) context.indexCtxKey
              <> Some (context.AnyStrings indices)).
Proof.
  rewrite recordResponse_steps.
  destruct (analytics.parseResponse _ _) as [es|].
  - cbv zeta. case_bool_decide as Hid.
    + destruct (context.Value (http.ctx r) context.indexCtxKey) as [[| | |l|]|] eqn:Hv;
        cbn [analytics.asStrings bind].
      all: try (split;
                [intros _; split; [exact Hid|]; split; [eexists; reflexivity|];
                 intros indices; discriminate
                |intros _; eexists; reflexivity]).
      split; [intros [reason Hr]; discriminate Hr|].
      intros (_ & _ & Hno). destruct (Hno l). reflexivity.
    + split; [intros [reason Hr]; discriminate Hr|].
      intros (Hempty & _). contradiction.
  - split; [intros [reason Hr]; discriminate Hr|].
    intros (_ & [x Hx] & _). discriminate Hx.
Qed.

End recorder_outcomes.

Lemma prefix_true (s t : string) :
  String.prefix s t = true -> exists after, t = s +:+ after.
Proof.
  revert t. induction s as [|a s IH]; intros t Hp.
  - exists t. reflexivity.
  - destruct t as [|b t]; [discriminate Hp|]. simpl in Hp.
    destruct (Ascii.ascii_dec a b) as [->|]; [|discriminate Hp].
    destruct (IH t Hp) as [after ->]. exists after. reflexivity.
Qed.

Lemma Contains_true (s substr : string) :
  strings.Contains s substr = true ->
  exists before after, s = before +:+ (substr +:+ after).
Proof.
  induction s as [|a s IH]; rewrite Contains_unfold.
  - destruct (String.prefix substr EmptyString) eqn:Hp; [|discriminate].
    intros _. destruct (prefix_true _ _ Hp) as [after Hafter].
    exists EmptyString, after. exact Hafter.
  - destruct (String.prefix substr (String a s)) eqn:Hp.
    + intros _. destruct (prefix_true _ _ Hp) as [after Hafter].
      exists EmptyString, after. exact Hafter.
    + intros Hc. destruct (IH Hc) as (before & after & ->).
      exists (String a before), after. reflexivity.
Qed.

(** X11: a request URI in which [_msearch] occurs nowhere has its body
    decoded as a single search response; the multi-search decoder is not
    consulted. *)
Theorem single_search_branch `{analytics.External} (requestURI : string)
    (respBody : list Byte.byte) :
  (forall before after, requestURI <> before +:+ ("_msearch" +:+ after)) ->
  analytics.parseResponse requestURI respBody
    = analytics.json_Unmarshal_searchResponse respBody.
Proof.
  intros Hnowhere. unfold analytics.parseResponse.
  destruct (strings.Contains requestURI "_msearch") eqn:Hc; [|reflexivity].
  destruct (Contains_true _ _ Hc) as (before & after & Heq).
  destruct (Hnowhere before after Heq).
Qed.

Lemma single_search_branch_witness :
  analytics.parseResponse (H := scenario.external) "/myidx/_search"
    (scenario.body "{took:7}")
  = Some scenario.twoHits.
Proof.
  refine (single_search_branch (H := scenario.external) "/myidx/_search"
            (scenario.body "{took:7}") _).
  intros before after Heq.
  assert (Hc : strings.Contains "/myidx/_search" "_msearch" = true)
    by (rewrite Heq; apply Contains_infix).
  vm_compute in Hc. discriminate Hc.
Defined.


Section record_contents.
Context `{analytics.External}.

Lemma recordHits_length (hs : list analytics.hit) :
  (length (analytics.recordHits hs) <= length hs)%nat.
Proof.
  induction hs as [|x hs IH]; simpl; [lia|].
  destruct (analytics.json_Marshal (analytics.Source x)); simpl; lia.
Qed.

Lemma recordHits_origin (hs : list analytics.hit) (m : gmap string string) :
  m ∈ analytics.recordHits hs ->
  exists x raw,
    x ∈ hs /\ analytics.json_Marshal (analytics.Source x) = Some raw
    /\ m = recordedHit (analytics.Id x) (analytics.Type_ x) raw.
Proof.
  induction hs as [|x hs IH]; simpl; intros Hm.
  - apply elem_of_nil in Hm. destruct Hm.
  - destruct (analytics.json_Marshal (analytics.Source x)) as [raw|] eqn:Hraw.
    + apply elem_of_cons in Hm as [->|Hm].
      * exists x, raw. split; [apply list_elem_of_here|]. split; [exact Hraw|reflexivity].
      * destruct (IH Hm) as (y & raw' & Hy & Hraw' & ->).
        exists y, raw'. split; [apply list_elem_of_further; exact Hy|].
        split; [exact Hraw'|reflexivity].
    + destruct (IH Hm) as (y & raw' & Hy & Hraw' & ->).
      exists y, raw'. split; [apply list_elem_of_further; exact Hy|].
      split; [exact Hraw'|reflexivity].
Qed.

Lemma recordHits_all (hs : list analytics.hit) :
  (forall x, x ∈ hs -> is_Some (analytics.json_Marshal (analytics.Source x))) ->
  length (analytics.recordHits hs) = length hs
  /\ forall i x,
       hs !! i = Some x ->
       exists raw,
         analytics.json_Marshal (analytics.Source x) = Some raw
         /\ analytics.recordHits hs !! i
            = Some (recordedHit (analytics.Id x) (analytics.Type_ x) raw).
Proof.
  induction hs as [|y hs IH]; intros Hall.
  - split; [reflexivity|]. intros i x Hi. discriminate Hi.
  - destruct (Hall y (list_elem_of_here y hs)) as [raw Hraw].
    destruct IH as [Hlen Hnth].
    { intros x Hx. apply Hall. apply list_elem_of_further. exact Hx. }
    simpl. rewrite Hraw. simpl. split; [rewrite Hlen; reflexivity|].
    intros [|i] x Hi; simpl in Hi.
    + injection Hi as <-. exists raw. split; [exact Hraw|reflexivity].
    + exact (Hnth i x Hi).
Qed.

(** X12: the record of an origin event keeps at most ten hits and no more
    than the response has; each kept hit is made of the id, the type and
    the marshalled source of one of the first ten hits of the response. *)
Theorem hits_in_response_bounded (now docId : string)
    (respRecorder : http.ResponseWriter) (r : http.Request) (d : string)
    (record : gmap string analytics.value) :
  analytics.recordResponse now docId EmptyString respRecorder r
    = Ok (analytics.Indexed d record) ->
  exists esResponse hits,
    analytics.parseResponse (http.RequestURI r) (renamed (http.Body respRecorder))
      = Some esResponse
    /\ record !! "hits_in_response" = Some (analytics.VHits hits)
    /\ (length hits <= 10)%nat
    /\ (length hits <= length (analytics.Hits_Hits esResponse))%nat
    /\ forall m,
         m ∈ hits ->
         exists x raw,
           x ∈ take 10 (analytics.Hits_Hits esResponse)
           /\ analytics.json_Marshal (analytics.Source x) = Some raw
           /\ m = recordedHit (analytics.Id x) (analytics.Type_ x) raw.
Proof.
  intros Hrec.
  destruct (recordResponse_Indexed _ _ _ _ _ _ _ Hrec) as (es & Hes & _ & _ & Hkeys).
  rewrite bool_decide_eq_true_2 in Hkeys by reflexivity.
  destruct Hkeys as (l & _ & _ & _ & Hh & _).
  exists es, (analytics.recordHits (take 10 (analytics.Hits_Hits es))).
  split; [exact Hes|]. split; [exact Hh|].
  pose proof (recordHits_length (take 10 (analytics.Hits_Hits es))) as Hlen.
  rewrite length_take in Hlen.
  split; [lia|]. split; [lia|].
  intros m Hm. exact (recordHits_origin _ m Hm).
Qed.

(** X13: when the sources of the first ten hits all marshal, the record of
    an origin event keeps exactly the first ten hits of the response (all of
    them when there are fewer), in the response's order. *)
Theorem hits_in_response_in_order (now docId : string)
    (respRecorder : http.ResponseWriter) (r : http.Request) (d : string)
    (record : gmap string analytics.value) (esResponse : analytics.searchResponse) :
  analytics.recordResponse now docId EmptyString respRecorder r
    = Ok (analytics.Indexed d record) ->
  analytics.parseResponse (http.RequestURI r) (renamed (http.Body respRecorder))
    = Some esResponse ->
  (forall x,
     x ∈ take 10 (analytics.Hits_Hits esResponse) ->
     is_Some (analytics.json_Marshal (analytics.Source x))) ->
  exists hits,
    record !! "hits_in_response" = Some (analytics.VHits hits)
    /\ length hits = (length (analytics.Hits_Hits esResponse) `min` 10)%nat
    /\ forall i x,
         (i < 10)%nat ->
         analytics.Hits_Hits esResponse !! i = Some x ->
         exists raw,
           analytics.json_Marshal (analytics.Source x) = Some raw
           /\ hits !! i = Some (recordedHit (analytics.Id x) (analytics.Type_ x) raw).
Proof.
  intros Hrec Hparse Hall.
  destruct (recordResponse_Indexed _ _ _ _ _ _ _ Hrec) as (es & Hes & _ & _ & Hkeys).
  rewrite Hparse in Hes. injection Hes as <-.
  rewrite bool_decide_eq_true_2 in Hkeys by reflexivity.
  destruct Hkeys as (l & _ & _ & _ & Hh & _).
  destruct (recordHits_all _ Hall) as [Hlen Hnth].
  eexists. split; [exact Hh|]. split.
  - rewrite Hlen, length_take. lia.
  - intros i x Hi Hx. apply Hnth. rewrite lookup_take_lt by exact Hi. exact Hx.
Qed.

End record_contents.

Lemma shoesRecord_indexed :
  analytics.recordResponse (H := scenario.external) "2019/07/01 10:00:00"
    "6ba7b811-9dad-11d1-80b4-00c04fd430c8" EmptyString scenario.recorded scenario.shoes
  = Ok (analytics.Indexed "6ba7b811-9dad-11d1-80b4-00c04fd430c8" scenario.shoesRecord).
Proof. vm_compute. reflexivity. Qed.

Lemma hits_in_response_bounded_witness :
  exists esResponse hits,
    analytics.parseResponse (H := scenario.external) (http.RequestURI scenario.shoes)
      (renamed (http.Body scenario.recorded)) = Some esResponse
    /\ scenario.shoesRecord !! "hits_in_response" = Some (analytics.VHits hits)
    /\ (length hits <= 10)%nat
    /\ (length hits <= length (analytics.Hits_Hits esResponse))%nat
    /\ forall m,
         m ∈ hits ->
         exists x raw,
           x ∈ take 10 (analytics.Hits_Hits esResponse)
           /\ analytics.json_Marshal (External := scenario.external) (analytics.Source x)
              = Some raw
           /\ m = recordedHit (analytics.Id x) (analytics.Type_ x) raw.
Proof.
  exact (hits_in_response_bounded (H := scenario.external) _ _ _ _ _ _
           shoesRecord_indexed).
Defined.

Lemma hits_in_response_in_order_witness :
  exists hits,
    scenario.shoesRecord !! "hits_in_response" = Some (analytics.VHits hits)
    /\ length hits = (length (analytics.Hits_Hits scenario.twoHits) `min` 10)%nat
    /\ forall i x,
         (i < 10)%nat ->
         analytics.Hits_Hits scenario.twoHits !! i = Some x ->
         exists raw,
           analytics.json_Marshal (External := scenario.external) (analytics.Source x)
             = Some raw
           /\ hits !! i = Some (recordedHit (analytics.Id x) (analytics.Type_ x) raw).
Proof.
  exact (hits_in_response_in_order (H := scenario.external) _ _ _ _ _ _ scenario.twoHits
           shoesRecord_indexed eq_refl
           (fun x _ => ex_intro _ _ eq_refl)).
Defined.


Section record_fields.
Context `{analytics.External}.

Ltac step_ne :=
  intros Hk;
  unfold addIP, addLocation, addCountry, addClick, addClickPosition, addConversion,
    addCustomEvents;
  repeat first [case_bool_decide | case_match];
  rewrite ?lookup_insert_ne by congruence; reflexivity.

Lemma addIP_ne r (m : gmap string analytics.value) k :
  k <> "ip" -> addIP r m !! k = m !! k.
Proof. step_ne. Qed.

Lemma addLocation_ne r (m : gmap string analytics.value) k :
  k <> "location" -> addLocation r m !! k = m !! k.
Proof. step_ne. Qed.

Lemma addCountry_ne r (m : gmap string analytics.value) k :
  k <> "country" -> addCountry r m !! k = m !! k.
Proof. step_ne. Qed.

Lemma addClick_ne r (m : gmap string analytics.value) k :
  k <> "click" -> addClick r m !! k = m !! k.
Proof. step_ne. Qed.

Lemma addClickPosition_ne r (m : gmap string analytics.value) k :
  k <> "click_position" -> addClickPosition r m !! k = m !! k.
Proof. step_ne. Qed.

Lemma addConversion_ne r (m : gmap string analytics.value) k :
  k <> "conversion" -> addConversion r m !! k = m !! k.
Proof. step_ne. Qed.

Lemma addCustomEvents_ne r (m : gmap string analytics.value) k :
  k <> "custom_events" -> addCustomEvents r m !! k = m !! k.
Proof. step_ne. Qed.

Ltac through_steps :=
  unfold requestFields;
  rewrite ?addCustomEvents_ne by discriminate;
  rewrite ?addConversion_ne by discriminate;
  rewrite ?addClickPosition_ne by discriminate;
  rewrite ?addClick_ne by discriminate;
  rewrite ?addCountry_ne by discriminate;
  rewrite ?addLocation_ne by discriminate;
  rewrite ?addIP_ne by discriminate.

(** The fields [requestFields] adds to a record that has none of them. *)
Lemma requestFields_own (r : http.Request) (base : gmap string analytics.value) :
  base !! "location" = None -> base !! "country" = None -> base !! "click" = None ->
  base !! "click_position" = None -> base !! "conversion" = None ->
  base !! "custom_events" = None ->
  requestFields r base !! "ip"
    = Some (analytics.VString (analytics.iplookup_FromRequest r))
  /\ requestFields r base !! "location"
     = analytics.VString
         <$> analytics.iplookup_GetCoordinates (analytics.iplookup_FromRequest r)
  /\ requestFields r base !! "country"
     = analytics.VString
         <$> analytics.iplookup_GetCountry (analytics.iplookup_FromRequest r)
  /\ requestFields r base !! "click"
     = (if bool_decide
             (http.HeaderGet (http.ReqHeader r) analytics.XSearchClick = EmptyString)
        then None
        else analytics.VBool
               <$> strconv.ParseBool
                     (http.HeaderGet (http.ReqHeader r) analytics.XSearchClick))
  /\ requestFields r base !! "click_position"
     = (if bool_decide
             (http.HeaderGet (http.ReqHeader r) analytics.XSearchClickPosition
              = EmptyString)
        then None
        else analytics.VInt
               <$> analytics.strconv_Atoi
                     (http.HeaderGet (http.ReqHeader r) analytics.XSearchClickPosition))
  /\ requestFields r base !! "conversion"
     = (if bool_decide
             (http.HeaderGet (http.ReqHeader r) analytics.XSearchConversion = EmptyString)
        then None
        else analytics.VBool
               <$> strconv.ParseBool
                     (http.HeaderGet (http.ReqHeader r) analytics.XSearchConversion))
  /\ requestFields r base !! "custom_events"
     = (if bool_decide
             (0 < size (analytics.parse
                          (http.HeaderGet (http.ReqHeader r)
                             analytics.XSearchCustomEvent)))%nat
        then Some (analytics.VMap
                     (analytics.parse
                        (http.HeaderGet (http.ReqHeader r) analytics.XSearchCustomEvent)))
        else None).
Proof.
  intros Hloc Hcountry Hclick Hpos Hconv Hcustom.
  repeat split; through_steps.
  - unfold addIP. apply lookup_insert_eq.
  - unfold addLocation. case_match.
    + apply lookup_insert_eq.
    + rewrite addIP_ne by discriminate. exact Hloc.
  - unfold addCountry. case_match.
    + apply lookup_insert_eq.
    + rewrite addLocation_ne, addIP_ne by discriminate. exact Hcountry.
  - unfold addClick. case_bool_decide; [|case_match].
    + through_steps. exact Hclick.
    + apply lookup_insert_eq.
    + through_steps. exact Hclick.
  - unfold addClickPosition. case_bool_decide; [|case_match].
    + through_steps. exact Hpos.
    + apply lookup_insert_eq.
    + through_steps. exact Hpos.
  - unfold addConversion. case_bool_decide; [|case_match].
    + through_steps. exact Hconv.
    + apply lookup_insert_eq.
    + through_steps. exact Hconv.
  - unfold addCustomEvents. case_bool_decide.
    + apply lookup_insert_eq.
    + through_steps. exact Hcustom.
Qed.

(** An indexed record is the request's fields on top of the took and
    origin fields. *)
Lemma recordResponse_base (now docId searchId : string)
    (respRecorder : http.ResponseWriter) (r : http.Request) (d : string)
    (record : gmap string analytics.value) :
  analytics.recordResponse now docId searchId respRecorder r
    = Ok (analytics.Indexed d record) ->
  exists base,
    record = requestFields r base
    /\ forall k,
         k <> "took" -> k <> "indices" -> k <> "search_query" ->
         k <> "hits_in_response" -> k <> "total_hits" -> k <> "datestamp" ->
         k <> "search_filters" ->
         base !! k = None.
Proof.
  rewrite recordResponse_steps.
  destruct (analytics.parseResponse _ _) as [es|]; [|discriminate].
  cbv zeta. case_bool_decide as Hid.
  - destruct (analytics.asStrings _) as [l|]; [|discriminate].
    cbn [bind]. intros Hrec. injection Hrec as _ <-.
    eexists. split; [reflexivity|].
    intros k Ht Hi Hq Hh Hto Hd Hf. unfold originFields.
    rewrite addFilters_lookup by exact Hf.
    rewrite !lookup_insert_ne by congruence. apply lookup_empty.
  - intros Hrec. injection Hrec as _ <-.
    eexists. split; [reflexivity|].
    intros k Ht Hi Hq Hh Hto Hd Hf.
    rewrite lookup_insert_ne by congruence. apply lookup_empty.
Qed.

(** X14: every indexed record carries the client's ip.  The location and
    the country are there exactly when their lookup succeeds; click,
    click_position and conversion exactly when their header is non-empty and
    parses, with the parsed value; custom_events exactly when the parsed
    header is non-empty.  A header that does not parse leaves its field out
    and the record is indexed all the same. *)
Theorem request_fields_of_record (now docId searchId : string)
    (respRecorder : http.ResponseWriter) (r : http.Request) (d : string)
    (record : gmap string analytics.value) :
  analytics.recordResponse now docId searchId respRecorder r
    = Ok (analytics.Indexed d record) ->
  record !! "ip" = Some (analytics.VString (analytics.iplookup_FromRequest r))
  /\ record !! "location"
     = analytics.VString
         <$> analytics.iplookup_GetCoordinates (analytics.iplookup_FromRequest r)
  /\ record !! "country"
     = analytics.VString
         <$> analytics.iplookup_GetCountry (analytics.iplookup_FromRequest r)
  /\ record !! "click"
     = (if bool_decide
             (http.HeaderGet (http.ReqHeader r) analytics.XSearchClick = EmptyString)
        then None
        else analytics.VBool
               <$> strconv.ParseBool
                     (http.HeaderGet (http.ReqHeader r) analytics.XSearchClick))
  /\ record !! "click_position"
     = (if bool_decide
             (http.HeaderGet (http.ReqHeader r) analytics.XSearchClickPosition
              = EmptyString)
        then None
        else analytics.VInt
               <$> analytics.strconv_Atoi
                     (http.HeaderGet (http.ReqHeader r) analytics.XSearchClickPosition))
  /\ record !! "conversion"
     = (if bool_decide
             (http.HeaderGet (http.ReqHeader r) analytics.XSearchConversion = EmptyString)
        then None
        else analytics.VBool
               <$> strconv.ParseBool
                     (http.HeaderGet (http.ReqHeader r) analytics.XSearchConversion))
  /\ record !! "custom_events"
     = (if bool_decide
             (0 < size (analytics.parse
                          (http.HeaderGet (http.ReqHeader r)
                             analytics.XSearchCustomEvent)))%nat
        then Some (analytics.VMap
                     (analytics.parse
                        (http.HeaderGet (http.ReqHeader r) analytics.XSearchCustomEvent)))
        else None).
Proof.
  intros Hrec. destruct (recordResponse_base _ _ _ _ _ _ _ Hrec) as (base & -> & Hbase).
  apply requestFields_own; apply Hbase; discriminate.
Qed.

(** X15: an indexed record never holds a key outside the fourteen the
    function names. *)
Theorem record_keys_closed (now docId searchId : string)
    (respRecorder : http.ResponseWriter) (r : http.Request) (d : string)
    (record : gmap string analytics.value) (k : string) :
  analytics.recordResponse now docId searchId respRecorder r
    = Ok (analytics.Indexed d record) ->
  is_Some (record !! k) ->
  k ∈ recordKeys.
Proof.
  intros Hrec Hk. destruct (recordResponse_base _ _ _ _ _ _ _ Hrec) as (base & -> & Hbase).
  destruct (decide (k ∈ recordKeys)) as [Hin|Hout]; [exact Hin|exfalso].
  unfold recordKeys in Hout. rewrite !not_elem_of_cons in Hout.
  destruct Hout as (Ht & Hi & Hq & Hh & Hto & Hd & Hf & Hip & Hloc & Hco & Hcl & Hpos
                    & Hconv & Hcus & _).
  rewrite requestFields_lookup in Hk by assumption.
  rewrite (Hbase k Ht Hi Hq Hh Hto Hd Hf) in Hk. destruct Hk as [x Hx]. discriminate Hx.
Qed.

End record_fields.

Lemma request_fields_of_record_witness :
  scenario.shoesRecord !! "ip" = Some (analytics.VString "203.0.113.7:4711")
  /\ scenario.shoesRecord !! "country" = Some (analytics.VString "NL")
  /\ scenario.shoesRecord !! "click" = None.
Proof.
  pose proof (request_fields_of_record (H := scenario.external) _ _ _ _ _ _ _
                shoesRecord_indexed) as (Hip & _ & Hcountry & Hclick & _).
  exact (conj Hip (conj Hcountry Hclick)).
Defined.

Lemma record_keys_closed_witness :
  is_Some (scenario.shoesRecord !! "datestamp") /\ "datestamp" ∈ recordKeys.
Proof.
  assert (Hheld : is_Some (scenario.shoesRecord !! "datestamp"))
    by (vm_compute; eexists; reflexivity).
  exact (conj Hheld
           (record_keys_closed (H := scenario.external) _ _ _ _ _ _ scenario.shoesRecord
              "datestamp" shoesRecord_indexed Hheld)).
Defined.


(** * Further properties of the users handlers *)

Lemma Code_WriteBackRaw_any (w : http.ResponseWriter) (raw raw' : list Byte.byte)
    (code : Z) :
  http.Code (util.WriteBackRaw w raw code) = http.Code (util.WriteBackRaw w raw' code).
Proof. reflexivity. Qed.

Lemma Body_WriteBackRaw (w : http.ResponseWriter) (raw : list Byte.byte) (code : Z) :
  http.Body w = [] -> http.Body (util.WriteBackRaw w raw code) = raw.
Proof.
  intros Hb. unfold util.WriteBackRaw, http.Write, http.WriteHeader, http.SetHeader.
  simpl. destruct (http.wroteHeader w); simpl; rewrite Hb; reflexivity.
Qed.

Section patch_paths.
Context `{users.Backend}.

(** Both patch handlers on a body that reads, decodes and yields a patch. *)
Lemma patch_handlers_on_patch (w : http.ResponseWriter) (r : http.Request)
    (st : users.store) (body : list Byte.byte) (userBody : user.User)
    (patch : gmap string users.patchValue) :
  http.ReqBody r = Some body ->
  users.json_Unmarshal_User body = Some userBody ->
  users.GetPatch userBody = users.Val patch ->
  let checked (username notFound : string) :=
    match patch !! "acls", patch !! "categories" with
    | None, Some patchCategories =>
        match users.es_getUser st username with
        | users.Err _ =>
            (util.WriteBackError w
               ("an error occurred while fetching user with username=" +:+ dq
                  +:+ username +:+ dq) http.StatusInternalServerError, st)
        | users.Val reqUser =>
            match patchCategories with
            | users.PCategories categories =>
                match users.ValidateCategories reqUser categories with
                | Some err => (util.WriteBackError w err http.StatusBadRequest, st)
                | None => storePatch w st username patch notFound
                end
            | _ =>
                (util.WriteBackError w
                   ("an error occurred while validating categories patch for user "
                      +:+ dq +:+ username +:+ dq) http.StatusInternalServerError, st)
            end
        end
    | _, _ => storePatch w st username patch notFound
    end in
  users.patchUser w r st = checked (users.basicAuthUsername r) " Not Found"
  /\ forall username,
       http.Vars r !! "username" = Some username ->
       users.patchUserWithUsername w r st = checked username " not found".
Proof.
  intros Hbody Hjson Hpatch checked. split.
  - unfold users.patchUser. rewrite Hbody, Hjson, Hpatch. reflexivity.
  - intros username Hvars. unfold users.patchUserWithUsername.
    rewrite Hvars, Hbody, Hjson, Hpatch. reflexivity.
Qed.

(** X16: a patch that sets acls, or that sets no categories, is handed to
    [es.patchUser] as it is: the stored user is not fetched and
    [ValidateCategories] is not consulted, also when the patch sets
    categories together with acls. *)
Theorem patch_with_acls_skips_validation (w : http.ResponseWriter) (r : http.Request)
    (st : users.store) (body : list Byte.byte) (userBody : user.User)
    (patch : gmap string users.patchValue) :
  http.ReqBody r = Some body ->
  users.json_Unmarshal_User body = Some userBody ->
  users.GetPatch userBody = users.Val patch ->
  is_Some (patch !! "acls") \/ patch !! "categories" = None ->
  users.patchUser w r st = storePatch w st (users.basicAuthUsername r) patch " Not Found"
  /\ forall username,
       http.Vars r !! "username" = Some username ->
       users.patchUserWithUsername w r st = storePatch w st username patch " not found".
Proof.
  intros Hbody Hjson Hpatch Hskip.
  destruct (patch_handlers_on_patch w r st body userBody patch Hbody Hjson Hpatch)
    as [Hown Hnamed].
  assert (Hsame : forall username notFound,
             match patch !! "acls", patch !! "categories" with
             | None, Some patchCategories =>
                 match users.es_getUser st username with
                 | users.Err _ =>
                     (util.WriteBackError w
                        ("an error occurred while fetching user with username=" +:+ dq
                           +:+ username +:+ dq) http.StatusInternalServerError, st)
                 | users.Val reqUser =>
                     match patchCategories with
                     | users.PCategories categories =>
                         match users.ValidateCategories reqUser categories with
                         | Some err => (util.WriteBackError w err http.StatusBadRequest, st)
                         | None => storePatch w st username patch notFound
                         end
                     | _ =>
                         (util.WriteBackError w
                            ("an error occurred while validating categories patch for user "
                               +:+ dq +:+ username +:+ dq)
                            http.StatusInternalServerError, st)
                     end
                 end
             | _, _ => storePatch w st username patch notFound
             end = storePatch w st username patch notFound).
  { intros username notFound. destruct Hskip as [[a Ha]|Hc].
    - rewrite Ha. destruct (patch !! "categories"); reflexivity.
    - rewrite Hc. destruct (patch !! "acls"); reflexivity. }
  split.
  - rewrite Hown. apply Hsame.
  - intros username Hvars. rewrite (Hnamed username Hvars). apply Hsame.
Qed.

(** X17: a patch of categories alone that [ValidateCategories] accepts
    against the stored user is handed to [es.patchUser]; the answer is 200
    with the store's raw document when the store succeeds and 404 when it
    does not, and the store is left as [es.patchUser] leaves it. *)
Theorem patch_accepted_reaches_store (w : http.ResponseWriter) (r : http.Request)
    (st : users.store) (body : list Byte.byte) (userBody : user.User)
    (patch : gmap string users.patchValue) (categories : list category.Category) :
  http.ReqBody r = Some body ->
  users.json_Unmarshal_User body = Some userBody ->
  users.GetPatch userBody = users.Val patch ->
  patch !! "acls" = None ->
  patch !! "categories" = Some (users.PCategories categories) ->
  (forall reqUser,
     users.es_getUser st (users.basicAuthUsername r) = users.Val reqUser ->
     users.ValidateCategories reqUser categories = None ->
     users.patchUser w r st
       = storePatch w st (users.basicAuthUsername r) patch " Not Found")
  /\ (forall username reqUser,
        http.Vars r !! "username" = Some username ->
        users.es_getUser st username = users.Val reqUser ->
        users.ValidateCategories reqUser categories = None ->
        users.patchUserWithUsername w r st = storePatch w st username patch " not found").
Proof.
  intros Hbody Hjson Hpatch Hacls Hcats.
  destruct (patch_handlers_on_patch w r st body userBody patch Hbody Hjson Hpatch)
    as [Hown Hnamed].
  split.
  - intros reqUser Hget Hvalid. rewrite Hown, Hacls, Hcats, Hget, Hvalid. reflexivity.
  - intros username reqUser Hvars Hget Hvalid.
    rewrite (Hnamed username Hvars), Hacls, Hcats, Hget, Hvalid. reflexivity.
Qed.

(** X18: when a patch of categories alone cannot be checked, because the
    stored user cannot be fetched or because the patch's categories are not
    a list of categories, both handlers answer 500 and leave the store as it
    was. *)
Theorem patch_unchecked_is_500 (w : http.ResponseWriter) (r : http.Request)
    (st : users.store) (body : list Byte.byte) (userBody : user.User)
    (patch : gmap string users.patchValue) (patchCategories : users.patchValue) :
  http.ReqBody r = Some body ->
  users.json_Unmarshal_User body = Some userBody ->
  users.GetPatch userBody = users.Val patch ->
  patch !! "acls" = None ->
  patch !! "categories" = Some patchCategories ->
  http.wroteHeader w = false ->
  ((exists err, users.es_getUser st (users.basicAuthUsername r) = users.Err err)
   \/ (forall categories, patchCategories <> users.PCategories categories) ->
   (users.patchUser w r st).2 = st /\ http.Code (users.patchUser w r st).1 = 500)
  /\ (forall username,
        http.Vars r !! "username" = Some username ->
        (exists err, users.es_getUser st username = users.Err err)
        \/ (forall categories, patchCategories <> users.PCategories categories) ->
        (users.patchUserWithUsername w r st).2 = st
        /\ http.Code (users.patchUserWithUsername w r st).1 = 500).
Proof.
  intros Hbody Hjson Hpatch Hacls Hcats Hw.
  destruct (patch_handlers_on_patch w r st body userBody patch Hbody Hjson Hpatch)
    as [Hown Hnamed].
  assert (Hcase : forall username notFound,
             (exists err, users.es_getUser st username = users.Err err)
             \/ (forall categories, patchCategories <> users.PCategories categories) ->
             exists msg,
               match users.es_getUser st username with
               | users.Err _ =>
                   (util.WriteBackError w
                      ("an error occurred while fetching user with username=" +:+ dq
                         +:+ username +:+ dq) http.StatusInternalServerError, st)
               | users.Val reqUser =>
                   match patchCategories with
                   | users.PCategories categories =>
                       match users.ValidateCategories reqUser categories with
                       | Some err => (util.WriteBackError w err http.StatusBadRequest, st)
                       | None => storePatch w st username patch notFound
                       end
                   | _ =>
                       (util.WriteBackError w
                          ("an error occurred while validating categories patch for user "
                             +:+ dq +:+ username +:+ dq)
                          http.StatusInternalServerError, st)
                   end
               end = (util.WriteBackError w msg 500, st)).
  { intros username notFound [[err Herr]|Hcast].
    - rewrite Herr. eexists. reflexivity.
    - destruct (users.es_getUser st username); [|eexists; reflexivity].
      destruct patchCategories as [| categories | | | |]; try (eexists; reflexivity).
      destruct (Hcast categories). reflexivity. }
  split.
  - intros Hfail. rewrite Hown, Hacls, Hcats.
    destruct (Hcase _ " Not Found" Hfail) as [msg ->].
    split; [reflexivity|]. apply Code_WriteBackError. exact Hw.
  - intros username Hvars Hfail. rewrite (Hnamed username Hvars), Hacls, Hcats.
    destruct (Hcase _ " not found" Hfail) as [msg ->].
    split; [reflexivity|]. apply Code_WriteBackError. exact Hw.
Qed.


(** X20: addressed to the caller's own name, [patchUserWithUsername] leaves
    the store exactly as [patchUser] does and answers with the same status;
    the two differ only in the wording of the not-found message. *)
Theorem patch_handlers_agree (w : http.ResponseWriter) (r : http.Request)
    (st : users.store) :
  http.Vars r !! "username" = Some (users.basicAuthUsername r) ->
  (users.patchUserWithUsername w r st).2 = (users.patchUser w r st).2
  /\ http.Code (users.patchUserWithUsername w r st).1
     = http.Code (users.patchUser w r st).1.
Proof.
  intros Hvars. unfold users.patchUserWithUsername, users.patchUser. rewrite Hvars.
  destruct (http.ReqBody r) as [body|]; [|split; reflexivity].
  destruct (users.json_Unmarshal_User body) as [userBody|]; [|split; reflexivity].
  destruct (users.GetPatch userBody) as [patch|err]; [|split; reflexivity].
  cbv zeta.
  destruct (users.es_patchUser st (users.basicAuthUsername r) patch) as [[raw|e] st'].
  - repeat case_match;
      (split; cbn [fst snd];
       [reflexivity | unfold util.WriteBackError; apply Code_WriteBackRaw_any]).
  - repeat case_match;
      (split; cbn [fst snd];
       [reflexivity | unfold util.WriteBackError; apply Code_WriteBackRaw_any]).
Qed.

End patch_paths.

Lemma patch_with_acls_skips_validation_witness :
  users.patchUser (H := scenario.openBackend) http.freshWriter
    (scenario.usersRequest "PATCH" "/_user" context.Background (Some ("dave", "secret")) []
       (Some (scenario.body "both")))
    scenario.principals
  = storePatch (H := scenario.openBackend) http.freshWriter scenario.principals "dave"
      (scenario.patchOf (scenario.patchBody [acl.User] ["user"] EmptyString)) " Not Found".
Proof.
  exact (proj1 (patch_with_acls_skips_validation (H := scenario.openBackend)
                  http.freshWriter
                  (scenario.usersRequest "PATCH" "/_user" context.Background
                     (Some ("dave", "secret")) [] (Some (scenario.body "both")))
                  scenario.principals _ _ _ eq_refl eq_refl eq_refl
                  (or_introl (ex_intro _ _ eq_refl)))).
Defined.

Lemma patch_accepted_reaches_store_witness :
  users.patchUser (H := scenario.openBackend) http.freshWriter
    (scenario.usersRequest "PATCH" "/_user" context.Background (Some ("dave", "secret")) []
       (Some (scenario.body "search")))
    scenario.principals
  = storePatch (H := scenario.openBackend) http.freshWriter scenario.principals "dave"
      (scenario.patchOf (scenario.patchBody [] ["search"] EmptyString)) " Not Found".
Proof.
  exact (proj1 (patch_accepted_reaches_store (H := scenario.openBackend)
                  http.freshWriter
                  (scenario.usersRequest "PATCH" "/_user" context.Background
                     (Some ("dave", "secret")) [] (Some (scenario.body "search")))
                  scenario.principals _ _ _ ["search"] eq_refl eq_refl eq_refl eq_refl
                  eq_refl)
           scenario.dave eq_refl eq_refl).
Defined.

Lemma patch_unchecked_is_500_witness :
  (users.patchUserWithUsername (H := scenario.openBackend) http.freshWriter
     (scenario.usersRequest "PATCH" "/_user/erin" context.Background
        (Some ("dave", "secret")) [("username", "erin")] (Some (scenario.body "search")))
     scenario.principals).2 = scenario.principals
  /\ http.Code
       (users.patchUserWithUsername (H := scenario.openBackend) http.freshWriter
          (scenario.usersRequest "PATCH" "/_user/erin" context.Background
             (Some ("dave", "secret")) [("username", "erin")]
             (Some (scenario.body "search")))
          scenario.principals).1 = 500.
Proof.
  exact (proj2 (patch_unchecked_is_500 (H := scenario.openBackend) http.freshWriter
                  (scenario.usersRequest "PATCH" "/_user/erin" context.Background
                     (Some ("dave", "secret")) [("username", "erin")]
                     (Some (scenario.body "search")))
                  scenario.principals _ _ _ _ eq_refl eq_refl eq_refl eq_refl eq_refl
                  eq_refl)
           "erin" eq_refl (or_introl (ex_intro _ _ eq_refl))).
Defined.


Lemma patch_handlers_agree_witness :
  (users.patchUserWithUsername (H := scenario.openBackend) http.freshWriter
     (scenario.usersRequest "PATCH" "/_user/dave" context.Background
        (Some ("dave", "secret")) [("username", "dave")] (Some (scenario.body "search")))
     scenario.principals).2
  = (users.patchUser (H := scenario.openBackend) http.freshWriter
       (scenario.usersRequest "PATCH" "/_user/dave" context.Background
          (Some ("dave", "secret")) [("username", "dave")] (Some (scenario.body "search")))
       scenario.principals).2
  /\ http.Code
       (users.patchUserWithUsername (H := scenario.openBackend) http.freshWriter
          (scenario.usersRequest "PATCH" "/_user/dave" context.Background
             (Some ("dave", "secret")) [("username", "dave")]
             (Some (scenario.body "search")))
          scenario.principals).1
     = http.Code
         (users.patchUser (H := scenario.openBackend) http.freshWriter
            (scenario.usersRequest "PATCH" "/_user/dave" context.Background
               (Some ("dave", "secret")) [("username", "dave")]
               (Some (scenario.body "search")))
            scenario.principals).1.
Proof.
  exact (patch_handlers_agree (H := scenario.openBackend) http.freshWriter
           (scenario.usersRequest "PATCH" "/_user/dave" context.Background
              (Some ("dave", "secret")) [("username", "dave")]
              (Some (scenario.body "search")))
           scenario.principals eq_refl).
Defined.


Section directory_paths.
Context `{users.Directory}.

(** X21: [getUserWithUsername] answers 200 with the store's raw document,
    byte for byte, when the store has the named user, 404 when it has not,
    and 400 when the route carries no user name; the store is left as it
    was. *)
Theorem getUserWithUsername_outcomes (w : http.ResponseWriter) (r : http.Request)
    (st : users.store) :
  http.wroteHeader w = false ->
  http.Body w = [] ->
  (users.getUserWithUsername w r st).2 = st
  /\ match http.Vars r !! "username" with
     | None => http.Code (users.getUserWithUsername w r st).1 = 400
     | Some username =>
         match users.es_getRawUser st username with
         | users.Val rawUser =>
             http.Code (users.getUserWithUsername w r st).1 = 200
             /\ http.Body (users.getUserWithUsername w r st).1 = rawUser
         | users.Err _ => http.Code (users.getUserWithUsername w r st).1 = 404
         end
     end.
Proof.
  intros Hw Hb. unfold users.getUserWithUsername.
  destruct (http.Vars r !! "username") as [username|]; cbn [fst snd].
  - destruct (users.es_getRawUser st username) as [rawUser|err]; cbn [fst snd].
    + split; [reflexivity|]. split.
      * apply Code_WriteBackRaw. exact Hw.
      * apply Body_WriteBackRaw. exact Hb.
    + split; [reflexivity|]. apply Code_WriteBackError. exact Hw.
  - split; [reflexivity|]. apply Code_WriteBackError. exact Hw.
Qed.

(** X22: when the request context holds a user, [getUser] answers with
    that user, marshalled, and 200 (500 when it does not marshal); the
    answer is the same for every store and every credentials, and the store
    is left as it was.  Without a context user it reads the store under the
    user name of the basic authentication: 200 with the raw document, byte
    for byte, or 404. *)
Theorem getUser_prefers_context (w : http.ResponseWriter) (r : http.Request)
    (st : users.store) :
  http.wroteHeader w = false ->
  http.Body w = [] ->
  (users.getUser w r st).2 = st
  /\ match users.user_FromContext (http.ctx r) with
     | users.Val reqUser =>
         (forall r' (st' : users.store),
            http.ctx r' = http.ctx r ->
            (users.getUser w r' st').1 = (users.getUser w r st).1)
         /\ match users.json_Marshal_User reqUser with
            | users.Val rawUser =>
                http.Code (users.getUser w r st).1 = 200
                /\ http.Body (users.getUser w r st).1 = rawUser
            | users.Err _ => http.Code (users.getUser w r st).1 = 500
            end
     | users.Err _ =>
         match users.es_getRawUser st (users.basicAuthUsername r) with
         | users.Val rawUser =>
             http.Code (users.getUser w r st).1 = 200
             /\ http.Body (users.getUser w r st).1 = rawUser
         | users.Err _ => http.Code (users.getUser w r st).1 = 404
         end
     end.
Proof.
  intros Hw Hb. unfold users.getUser. cbv zeta.
  destruct (users.user_FromContext (http.ctx r)) as [reqUser|] eqn:Hctx.
  - split; [destruct (users.json_Marshal_User reqUser); reflexivity|].
    split.
    + intros r' st' Hsame. rewrite Hsame, Hctx.
      destruct (users.json_Marshal_User reqUser); reflexivity.
    + destruct (users.json_Marshal_User reqUser) as [rawUser|]; cbn [fst snd].
      * split; [apply Code_WriteBackRaw; exact Hw|apply Body_WriteBackRaw; exact Hb].
      * apply Code_WriteBackError. exact Hw.
  - destruct (users.es_getRawUser st (users.basicAuthUsername r)) as [rawUser|];
      cbn [fst snd].
    + split; [reflexivity|].
      split; [apply Code_WriteBackRaw; exact Hw|apply Body_WriteBackRaw; exact Hb].
    + split; [reflexivity|]. apply Code_WriteBackError. exact Hw.
Qed.

(** X23: [postUser] refuses a body without a user name, and a body with a
    user name and without a password, with 400; neither [user.New] nor the
    store is reached, and the store is left as it was.  The user name is
    looked at first. *)
Theorem postUser_requires_name_and_password (w : http.ResponseWriter)
    (r : http.Request) (st : users.store) (body : list Byte.byte) (d : users.decoded) :
  http.ReqBody r = Some body ->
  users.json_Unmarshal_decoded body = Some d ->
  http.wroteHeader w = false ->
  (user.Username (users.decodedUser d) = EmptyString ->
   users.postUser w r st
     = (util.WriteBackError w
          ("can't create a user without a " +:+ dq +:+ "username" +:+ dq) 400, st)
   /\ http.Code (users.postUser w r st).1 = 400)
  /\ (user.Username (users.decodedUser d) <> EmptyString ->
      user.Password (users.decodedUser d) = EmptyString ->
      users.postUser w r st
        = (util.WriteBackError w
             ("user " +:+ dq +:+ "password" +:+ dq +:+ " shouldn't be empty") 400, st)
      /\ http.Code (users.postUser w r st).1 = 400).
Proof.
  intros Hbody Hjson Hw. split.
  - intros Hname.
    assert (Hrun : users.postUser w r st
                   = (util.WriteBackError w
                        ("can't create a user without a " +:+ dq +:+ "username" +:+ dq)
                        400, st)).
    { unfold users.postUser. rewrite Hbody, Hjson. cbv zeta.
      rewrite (bool_decide_eq_true_2 _ Hname). reflexivity. }
    split; [exact Hrun|]. rewrite Hrun. apply Code_WriteBackError. exact Hw.
  - intros Hname Hpass.
    assert (Hrun : users.postUser w r st
                   = (util.WriteBackError w
                        ("user " +:+ dq +:+ "password" +:+ dq +:+ " shouldn't be empty")
                        400, st)).
    { unfold users.postUser. rewrite Hbody, Hjson. cbv zeta.
      rewrite (bool_decide_eq_false_2 _ Hname), (bool_decide_eq_true_2 _ Hpass).
      reflexivity. }
    split; [exact Hrun|]. rewrite Hrun. apply Code_WriteBackError. exact Hw.
Qed.

(** X24: for a body with a user name and a password from which [user.New]
    builds a user that marshals, [postUser] calls the store once with that
    user.  It answers 201 with the marshalled new user when the store
    reports success without an error, and 500 otherwise, also when the
    store reports success together with an error; the store is left as the
    call leaves it. *)
Theorem postUser_created_or_500 (w : http.ResponseWriter) (r : http.Request)
    (st st' : users.store) (body : list Byte.byte) (d : users.decoded)
    (newUser : user.User) (rawUser : list Byte.byte) (ok : bool)
    (err : option users.error) :
  http.ReqBody r = Some body ->
  users.json_Unmarshal_decoded body = Some d ->
  user.Username (users.decodedUser d) <> EmptyString ->
  user.Password (users.decodedUser d) <> EmptyString ->
  users.user_New (user.Username (users.decodedUser d)) (user.Password (users.decodedUser d))
    (users.postOptions d) = users.Val newUser ->
  users.json_Marshal_User newUser = users.Val rawUser ->
  users.es_postUser st newUser = ((ok, err), st') ->
  http.wroteHeader w = false ->
  http.Body w = [] ->
  (users.postUser w r st).2 = st'
  /\ http.Code (users.postUser w r st).1
     = (if ok && bool_decide (err = None) then 201 else 500)
  /\ (ok = true -> err = None -> http.Body (users.postUser w r st).1 = rawUser).
Proof.
  intros Hbody Hjson Hname Hpass Hnew Hraw Hpost Hw Hb.
  unfold users.postUser. rewrite Hbody, Hjson. cbv zeta.
  rewrite (bool_decide_eq_false_2 _ Hname), (bool_decide_eq_false_2 _ Hpass).
  rewrite Hnew, Hraw, Hpost.
  destruct (ok && bool_decide (err = None)) eqn:Hok; cbn [fst snd].
  - split; [reflexivity|]. split; [apply Code_WriteBackRaw; exact Hw|].
    intros _ _. apply Body_WriteBackRaw. exact Hb.
  - split; [reflexivity|]. split; [apply Code_WriteBackError; exact Hw|].
    intros -> ->. discriminate Hok.
Qed.

(** X25: both delete handlers call the store once and leave it as the call
    leaves it.  They answer 200 when the store reports success without an
    error and 404 in every other case, also when the store failed for
    another reason than a missing user; without a user name in the route
    [deleteUserWithUsername] answers 400 and does not call the store. *)
Theorem delete_outcomes (w : http.ResponseWriter) (r : http.Request)
    (st : users.store) :
  http.wroteHeader w = false ->
  ((users.deleteUser w r st).2 = (users.es_deleteUser st (users.basicAuthUsername r)).2
   /\ http.Code (users.deleteUser w r st).1
      = (if (users.es_deleteUser st (users.basicAuthUsername r)).1.1
            && bool_decide ((users.es_deleteUser st (users.basicAuthUsername r)).1.2 = None)
         then 200 else 404))
  /\ match http.Vars r !! "username" with
     | None =>
         (users.deleteUserWithUsername w r st).2 = st
         /\ http.Code (users.deleteUserWithUsername w r st).1 = 400
     | Some username =>
         (users.deleteUserWithUsername w r st).2 = (users.es_deleteUser st username).2
         /\ http.Code (users.deleteUserWithUsername w r st).1
            = (if (users.es_deleteUser st username).1.1
                  && bool_decide ((users.es_deleteUser st username).1.2 = None)
               then 200 else 404)
     end.
Proof.
  intros Hw. split.
  - unfold users.deleteUser. cbv zeta.
    destruct (users.es_deleteUser st (users.basicAuthUsername r)) as [[ok err] st'].
    cbn [fst snd]. destruct (ok && bool_decide (err = None)); cbn [fst snd].
    + split; [reflexivity|]. apply Code_WriteBackMessage. exact Hw.
    + split; [reflexivity|]. apply Code_WriteBackError. exact Hw.
  - unfold users.deleteUserWithUsername.
    destruct (http.Vars r !! "username") as [username|].
    + destruct (users.es_deleteUser st username) as [[ok err] st'].
      cbn [fst snd]. destruct (ok && bool_decide (err = None)); cbn [fst snd].
      * split; [reflexivity|]. apply Code_WriteBackMessage. exact Hw.
      * split; [reflexivity|]. apply Code_WriteBackError. exact Hw.
    + cbn [fst snd]. split; [reflexivity|]. apply Code_WriteBackError. exact Hw.
Qed.

End directory_paths.

Lemma getUserWithUsername_outcomes_witness :
  (users.getUserWithUsername (H0 := scenario.directory) http.freshWriter
     (scenario.usersRequest "GET" "/_user/dave" context.Background
        (Some ("alice", "secret")) [("username", "dave")] None)
     scenario.principals).2 = scenario.principals
  /\ http.Code
       (users.getUserWithUsername (H0 := scenario.directory) http.freshWriter
          (scenario.usersRequest "GET" "/_user/dave" context.Background
             (Some ("alice", "secret")) [("username", "dave")] None)
          scenario.principals).1 = 200
  /\ http.Body
       (users.getUserWithUsername (H0 := scenario.directory) http.freshWriter
          (scenario.usersRequest "GET" "/_user/dave" context.Background
             (Some ("alice", "secret")) [("username", "dave")] None)
          scenario.principals).1 = scenario.body "{username:dave}".
Proof.
  exact (getUserWithUsername_outcomes (H0 := scenario.directory) http.freshWriter
           (scenario.usersRequest "GET" "/_user/dave" context.Background
              (Some ("alice", "secret")) [("username", "dave")] None)
           scenario.principals eq_refl eq_refl).
Defined.

Lemma getUser_prefers_context_witness :
  http.Code
    (users.getUser (H0 := scenario.directory) http.freshWriter
       (scenario.usersRequest "GET" "/_user"
          (context.WithValue context.Background context.userCtxKey
             (context.AnyUserPtr (Some scenario.carol)))
          (Some ("dave", "secret")) [] None)
       scenario.principals).1 = 200
  /\ http.Body
       (users.getUser (H0 := scenario.directory) http.freshWriter
          (scenario.usersRequest "GET" "/_user"
             (context.WithValue context.Background context.userCtxKey
                (context.AnyUserPtr (Some scenario.carol)))
             (Some ("dave", "secret")) [] None)
          scenario.principals).1 = scenario.body "{username:carol}".
Proof.
  exact (proj2 (proj2 (getUser_prefers_context (H0 := scenario.directory)
                         http.freshWriter
                         (scenario.usersRequest "GET" "/_user"
                            (context.WithValue context.Background context.userCtxKey
                               (context.AnyUserPtr (Some scenario.carol)))
                            (Some ("dave", "secret")) [] None)
                         scenario.principals eq_refl eq_refl))).
Defined.

Lemma postUser_requires_name_and_password_witness :
  users.postUser (H0 := scenario.directory) http.freshWriter
    (scenario.usersRequest "POST" "/_user" context.Background (Some ("alice", "secret"))
       [] (Some (scenario.body "-")))
    scenario.principals
  = (util.WriteBackError http.freshWriter
       ("can't create a user without a " +:+ dq +:+ "username" +:+ dq) 400,
     scenario.principals)
  /\ http.Code
       (users.postUser (H0 := scenario.directory) http.freshWriter
          (scenario.usersRequest "POST" "/_user" context.Background
             (Some ("alice", "secret")) [] (Some (scenario.body "-")))
          scenario.principals).1 = 400.
Proof.
  exact (proj1 (postUser_requires_name_and_password (H0 := scenario.directory)
                  http.freshWriter
                  (scenario.usersRequest "POST" "/_user" context.Background
                     (Some ("alice", "secret")) [] (Some (scenario.body "-")))
                  scenario.principals _ _ eq_refl eq_refl eq_refl) eq_refl).
Defined.

Lemma postUser_created_or_500_witness :
  (users.postUser (H0 := scenario.directory) http.freshWriter
     (scenario.usersRequest "POST" "/_user" context.Background (Some ("alice", "secret"))
        [] (Some (scenario.body "erin")))
     scenario.principals).2
  = <["erin" := {| user.UserId := "erin"; user.Username := "erin";
                   user.Password := "secret"; user.Email := EmptyString;
                   user.IsAdmin := Some false; user.ACLs := [acl.Search];
                   user.Categories := []; user.Ops := [op.Read];
                   user.Indices := [] |}]> scenario.principals
  /\ http.Code
       (users.postUser (H0 := scenario.directory) http.freshWriter
          (scenario.usersRequest "POST" "/_user" context.Background
             (Some ("alice", "secret")) [] (Some (scenario.body "erin")))
          scenario.principals).1 = 201.
Proof.
  pose proof (postUser_created_or_500 (H0 := scenario.directory) http.freshWriter
                (scenario.usersRequest "POST" "/_user" context.Background
                   (Some ("alice", "secret")) [] (Some (scenario.body "erin")))
                scenario.principals _ _ _ _ _ true None eq_refl eq_refl
                ltac:(vm_compute; discriminate) ltac:(discriminate) eq_refl eq_refl
                eq_refl eq_refl eq_refl) as (Hstore & Hcode & _).
  exact (conj Hstore Hcode).
Defined.

Lemma delete_outcomes_witness :
  (users.deleteUser (H0 := scenario.directory) http.freshWriter
     (scenario.usersRequest "DELETE" "/_user" context.Background (Some ("dave", "secret"))
        [] None)
     scenario.principals).2 = delete "dave" scenario.principals
  /\ http.Code
       (users.deleteUser (H0 := scenario.directory) http.freshWriter
          (scenario.usersRequest "DELETE" "/_user" context.Background
             (Some ("dave", "secret")) [] None)
          scenario.principals).1 = 200.
Proof.
  exact (proj1 (delete_outcomes (H0 := scenario.directory) http.freshWriter
                  (scenario.usersRequest "DELETE" "/_user" context.Background
                     (Some ("dave", "secret")) [] None)
                  scenario.principals eq_refl)).
Defined.
